(** * Retrieval-context adapter and knowledge-base listing route

    A shallow embedding of
    - [customer-support-agent/app/lib/utils.ts] ([retrieveContext]) and
    - [customer-support-agent/app/api/knowledgebases/route.ts] ([GET]),
    together with the properties their specification states about them.

    JavaScript strings are modelled as [string] (byte strings; every
    separator and pattern the code uses is ASCII), JavaScript numbers as
    binary64 [float], values that may be [undefined] or [null] as [option],
    and the effects of the two functions (console output, the remote call,
    exceptions and [try]/[catch]) by a small trace-and-exception monad. *)

From Stdlib Require Import Ascii String PrimFloat DecimalString.
From stdpp Require Import gmap strings list.

Open Scope string_scope.
Set Warnings "-inexact-float".

(** ** JavaScript primitives used by the two functions *)

Module Js.

(** Truthiness of a possibly absent string: [undefined], [null] and the
    empty string are falsy. *)
Definition truthy_string (o : option string) : bool :=
  match o with
  | Some s => negb (String.eqb s "")
  | None => false
  end.

(** Truthiness of a number: [0], [-0] and [NaN] are falsy. *)
Definition truthy_number (x : float) : bool :=
  negb (PrimFloat.eqb x 0%float) && PrimFloat.eqb x x.

(** [a || d] where [a] is a possibly absent string. *)
Definition or_string (a : option string) (d : string) : string :=
  match a with
  | Some s => if String.eqb s "" then d else s
  | None => d
  end.

(** [a || d] where [a] is a possibly absent number. *)
Definition or_number (a : option float) (d : float) : float :=
  match a with
  | Some x => if truthy_number x then x else d
  | None => d
  end.

(** [s.split(sep)] for a separator of one character. The result is never
    empty: a string without the separator is its own single segment. *)
Fixpoint split (sep : ascii) (s : string) : list string :=
  match s with
  | EmptyString => [EmptyString]
  | String c rest =>
      if Ascii.eqb c sep then EmptyString :: split sep rest
      else match split sep rest with
           | seg :: segs => String c seg :: segs
           | [] => [String c EmptyString]
           end
  end.

(** [a.pop()] as a value: the last element, [undefined] on [[]]. *)
Definition pop (a : list string) : option string := last a.

(** [s.replace(/c/g, d)] for a pattern that is one literal character. *)
Fixpoint replace_all_char (c d : ascii) (s : string) : string :=
  match s with
  | EmptyString => EmptyString
  | String x rest =>
      String (if Ascii.eqb x c then d else x) (replace_all_char c d rest)
  end.

(** The rest of [s] after the prefix [pat], when [s] starts with it. *)
Fixpoint strip_prefix (pat s : string) : option string :=
  match pat, s with
  | EmptyString, _ => Some s
  | String _ _, EmptyString => None
  | String p pat', String c s' =>
      if Ascii.eqb p c then strip_prefix pat' s' else None
  end.

(** [s.replace(pat, rep)] with a string pattern: only the leftmost
    occurrence is replaced ([rep] has no [$] in the code modelled). *)
Fixpoint replace_first (pat rep s : string) : string :=
  match strip_prefix pat s with
  | Some rest => rep ++ rest
  | None =>
      match s with
      | EmptyString => EmptyString
      | String c s' => String c (replace_first pat rep s')
      end
  end.

(** [a.join(sep)] on an array of strings. *)
Definition join (sep : string) (a : list string) : string :=
  String.concat sep a.

(** An array index interpolated into a template literal: its decimal
    numeral. *)
Definition index_to_string (i : nat) : string :=
  NilEmpty.string_of_uint (Nat.to_uint i).

(** The line feed and the double quote, which string literals here do not
    write directly. *)
Definition LF : string := String "010"%char EmptyString.
Definition DQUOTE : string := String "034"%char EmptyString.

(** What [throw] can carry: an instance of [Error], or any other value. *)
Inductive Thrown : Type :=
| ErrorObject (name message : string) (stack : option string)
| NonError (shown : string).

(** A [Date]: a valid time value, which [toISOString] renders, or the
    invalid date, on which [toISOString] throws a [RangeError]. *)
Inductive Date : Type :=
| ValidDate (iso : string)
| InvalidDate.

Definition toISOString (d : Date) : Thrown + string :=
  match d with
  | ValidDate iso => inr iso
  | InvalidDate => inl (ErrorObject "RangeError" "Invalid time value" None)
  end.

End Js.

(** ** Shapes of the AWS SDK the two functions read and write

    Only the fields the code touches.  Every field the SDK declares optional
    is an [option]. *)

Module Bedrock.

(** [@aws-sdk/client-bedrock-agent-runtime] *)

Record RetrievalResultContent : Type :=
  { text : option string }.

Record S3Location : Type :=
  { uri : option string }.

Record RetrievalResultLocation : Type :=
  { s3Location : option S3Location }.

(** [metadata] is a JavaScript object used as a map from keys to values. *)
Record KnowledgeBaseRetrievalResult : Type :=
  { content : option RetrievalResultContent;
    location : option RetrievalResultLocation;
    score : option float;
    metadata : option (gmap string string) }.

Record RetrieveCommandOutput : Type :=
  { retrievalResults : option (list KnowledgeBaseRetrievalResult) }.

Record RetrievalQuery : Type :=
  { query_text : string }.

Record VectorSearchConfiguration : Type :=
  { numberOfResults : float }.

Record RetrievalConfiguration : Type :=
  { vectorSearchConfiguration : VectorSearchConfiguration }.

Record RetrieveCommandInput : Type :=
  { knowledgeBaseId : string;
    retrievalQuery : RetrievalQuery;
    retrievalConfiguration : RetrievalConfiguration }.

(** The client passed to [retrieveContext]: what [send] does with a
    [RetrieveCommand] is all the function sees of it.  The promise [send]
    returns is either rejected ([inl], which [await] turns into a throw) or
    fulfilled by a response ([inr]; [None] is an [undefined] response, which
    the code guards against with [response?.]). *)
Record BedrockAgentRuntimeClient : Type :=
  { send : RetrieveCommandInput -> Js.Thrown + option RetrieveCommandOutput }.

(** [@aws-sdk/client-bedrock-agent] *)

Record KnowledgeBaseSummary : Type :=
  { kb_knowledgeBaseId : option string;
    kb_name : option string;
    kb_description : option string;
    kb_status : option string;
    kb_updatedAt : option Js.Date }.

Record ListKnowledgeBasesCommandOutput : Type :=
  { knowledgeBaseSummaries : option (list KnowledgeBaseSummary) }.

(** The remote registry as [GET] reaches it: for a client built for a
    region, what [send] does with the [ListKnowledgeBasesCommand]. *)
Definition Registry : Type :=
  string -> Js.Thrown + ListKnowledgeBasesCommandOutput.

End Bedrock.

(** ** Results of the two functions *)

(** [export interface RAGSource] *)
Record RAGSource : Type :=
  { id : string;
    fileName : string;
    snippet : string;
    score : float }.

(** The object [retrieveContext] resolves to. *)
Record RetrievedContext : Type :=
  { context : string;
    isRagWorking : bool;
    ragSources : list RAGSource }.

(** One element of the list [GET] answers with. *)
Record KnowledgeBaseEntry : Type :=
  { entry_id : option string;
    entry_name : option string;
    entry_description : option string;
    entry_status : option string;
    entry_updatedAt : option string }.

(** The JSON bodies [GET] builds. *)
Inductive JsonBody : Type :=
| ErrorBody (error : string)
| KnowledgeBasesBody (knowledgeBases : list KnowledgeBaseEntry).

(** [NextResponse.json(body, { status })]. *)
Record NextResponse : Type :=
  { body : JsonBody;
    status : nat }.

(** [request.nextUrl.searchParams]: the query pairs in the order of the URL;
    a name can occur more than once. *)
Record NextRequest : Type :=
  { searchParams : list (string * string) }.

(** ** Effects: console output, remote calls, exceptions *)

(** The further arguments of a [console.log] or [console.error] call. *)
Inductive ConsoleArg : Type :=
| ArgString (s : option string)
| ArgThrown (e : Js.Thrown)
| ArgSources (l : list RAGSource).

Inductive Event : Type :=
| ConsoleLog (message : string) (args : list ConsoleArg)
| ConsoleError (message : string) (args : list ConsoleArg)
| RetrieveSent (input : Bedrock.RetrieveCommandInput)
| ListKnowledgeBasesSent (region : string).

(** A computation leaves a trace of events and either throws or returns. *)
Definition Eff (A : Type) : Type := list Event * (Js.Thrown + A).

Definition trace {A} (m : Eff A) : list Event := m.1.
Definition completion {A} (m : Eff A) : Js.Thrown + A := m.2.

Definition ret {A} (a : A) : Eff A := ([], inr a).

Definition throw {A} (e : Js.Thrown) : Eff A := ([], inl e).

Definition bind {A B} (m : Eff A) (k : A -> Eff B) : Eff B :=
  match m with
  | (t, inl e) => (t, inl e)
  | (t, inr a) => let '(t', r) := k a in ((t ++ t')%list, r)
  end.

(** [try { body } catch (error) { handler }] *)
Definition try_catch {A} (body : Eff A) (handler : Js.Thrown -> Eff A) : Eff A :=
  match body with
  | (t, inl e) => let '(t', r) := handler e in ((t ++ t')%list, r)
  | (t, inr a) => (t, inr a)
  end.

Definition emit (ev : Event) : Eff unit := ([ev], inr tt).

Notation "'let!' x ':=' m 'in' k" := (bind m (fun x => k))
  (at level 10, x name, m at level 100, k at level 200).
Notation "'do!' m 'in' k" := (bind m (fun _ => k))
  (at level 10, m at level 100, k at level 200).

Definition console_log (message : string) (args : list ConsoleArg) : Eff unit :=
  emit (ConsoleLog message args).

Definition console_error (message : string) (args : list ConsoleArg) : Eff unit :=
  emit (ConsoleError message args).

(** [await bedrockClient.send(command)] *)
Definition await_send (client : Bedrock.BedrockAgentRuntimeClient)
    (input : Bedrock.RetrieveCommandInput)
  : Eff (option Bedrock.RetrieveCommandOutput) :=
  ([RetrieveSent input], Bedrock.send client input).

(** [await client.send(command)] on a client built for [region]. *)
Definition await_list (registry : Bedrock.Registry) (region : string)
  : Eff Bedrock.ListKnowledgeBasesCommandOutput :=
  ([ListKnowledgeBasesSent region], registry region).

(** Lifting a step that throws or returns without any event. *)
Definition lift {A} (r : Js.Thrown + A) : Eff A := ([], r).

(** [a.map(f)] for a callback that may throw: the first throw ends it. *)
Fixpoint map_eff {A B} (f : A -> Eff B) (l : list A) : Eff (list B) :=
  match l with
  | [] => ret []
  | x :: l' => let! y := f x in let! ys := map_eff f l' in ret (y :: ys)
  end.

(** The events that reach a remote service. *)
Definition is_remote_call (ev : Event) : bool :=
  match ev with
  | RetrieveSent _ | ListKnowledgeBasesSent _ => true
  | ConsoleLog _ _ | ConsoleError _ _ => false
  end.

Definition remote_calls (t : list Event) : list Event :=
  List.filter is_remote_call t.

(** ** [retrieveContext] (app/lib/utils.ts) *)

(** The object both the early exit and the [catch] block return. *)
Definition not_working : RetrievedContext :=
  {| context := ""; isRagWorking := false; ragSources := [] |}.

(** The filter callback [res => res.content && res.content.text]. *)
Definition has_text (res : Bedrock.KnowledgeBaseRetrievalResult) : bool :=
  match Bedrock.content res with
  | Some c => Js.truthy_string (Bedrock.text c)
  | None => false
  end.

(** [result?.location?.s3Location?.uri] *)
Definition s3_uri (result : Bedrock.KnowledgeBaseRetrievalResult) : option string :=
  match Bedrock.location result with
  | Some l =>
      match Bedrock.s3Location l with
      | Some s => Bedrock.uri s
      | None => None
      end
  | None => None
  end.

(** [result.metadata?.["x-amz-bedrock-kb-chunk-id"]] *)
Definition chunk_id (result : Bedrock.KnowledgeBaseRetrievalResult) : option string :=
  match Bedrock.metadata result with
  | Some m => m !! "x-amz-bedrock-kb-chunk-id"
  | None => None
  end.

(** [result.content?.text] *)
Definition content_text (result : Bedrock.KnowledgeBaseRetrievalResult) : option string :=
  match Bedrock.content result with
  | Some c => Bedrock.text c
  | None => None
  end.

(** The callback of [.map((result, index) => ...)] that builds a source. *)
Definition to_source (index : nat) (result : Bedrock.KnowledgeBaseRetrievalResult)
  : RAGSource :=
  let uri := Js.or_string (s3_uri result) "" in
  let fileName :=
    Js.or_string (Js.pop (Js.split "/" uri))
                 ("Source-" ++ Js.index_to_string index ++ ".txt") in
  {| id := Js.or_string (chunk_id result) ("chunk-" ++ Js.index_to_string index);
     fileName := Js.replace_first ".txt" "" (Js.replace_all_char "_" " " fileName);
     snippet := Js.or_string (content_text result) "";
     score := Js.or_number (Bedrock.score result) 0 |}.

(** The callback [res => res.content.text]: reading [text] of an absent
    [content] throws a [TypeError]. *)
Definition text_of (res : Bedrock.KnowledgeBaseRetrievalResult) : Eff (option string) :=
  match Bedrock.content res with
  | Some c => ret (Bedrock.text c)
  | None =>
      throw (Js.ErrorObject "TypeError"
               "Cannot read properties of undefined (reading 'text')" None)
  end.

(** An array element as [join] renders it: [undefined] as the empty string. *)
Definition join_item (o : option string) : string := default "" o.

(** The [input] object of the [RetrieveCommand]. *)
Definition retrieve_input (knowledgeBaseId query : string) (n : float)
  : Bedrock.RetrieveCommandInput :=
  {| Bedrock.knowledgeBaseId := knowledgeBaseId;
     Bedrock.retrievalQuery := {| Bedrock.query_text := query |};
     Bedrock.retrievalConfiguration :=
       {| Bedrock.vectorSearchConfiguration :=
            {| Bedrock.numberOfResults := n |} |} |}.

(** The default of the parameter [n: number = 3]. *)
Definition default_n (n : option float) : float := default 3%float n.

(** [response?.retrievalResults || []]: an array, even an empty one, is
    truthy, so only an absent list is replaced. *)
Definition raw_results (response : option Bedrock.RetrieveCommandOutput)
  : list Bedrock.KnowledgeBaseRetrievalResult :=
  match response with
  | Some r => default [] (Bedrock.retrievalResults r)
  | None => []
  end.

(** The [catch] block. *)
Definition retrieve_catch (error : Js.Thrown) : Eff RetrievedContext :=
  do! console_error "RAG Error:" [ArgThrown error] in
  do! match error with
      | Js.ErrorObject _ message stack =>
          do! console_error "Error message:" [ArgString (Some message)] in
          console_error "Error stack:" [ArgString stack]
      | Js.NonError _ => ret tt
      end in
  ret {| context := ""; isRagWorking := false; ragSources := [] |}.

(** The body of the [try] block. *)
Definition retrieve_try (query : string) (knowledgeBaseId : option string)
    (n : float) (bedrockClient : Bedrock.BedrockAgentRuntimeClient)
  : Eff RetrievedContext :=
  if negb (Js.truthy_string knowledgeBaseId) then
    do! console_error "knowledgeBaseId is not provided" [] in
    ret {| context := ""; isRagWorking := false; ragSources := [] |}
  else
    let knowledgeBaseId := default "" knowledgeBaseId in
    do! console_log
          ("🔍 Querying knowledge base: " ++ knowledgeBaseId
           ++ " with query: " ++ Js.DQUOTE ++ query ++ Js.DQUOTE) [] in
    let input := retrieve_input knowledgeBaseId query n in
    let! response := await_send bedrockClient input in
    let rawResults := raw_results response in
    if Nat.eqb (length rawResults) 0 then
      do! console_log "⚠️ No results returned from Bedrock" [] in
      ret {| context := ""; isRagWorking := true; ragSources := [] |}
    else
      let ragSources := imap to_source (List.filter has_text rawResults) in
      do! console_log "🔍 Parsed RAG Sources:" [ArgSources ragSources] in
      let! texts := map_eff text_of (List.filter has_text rawResults) in
      let context := Js.join (Js.LF ++ Js.LF) (map join_item texts) in
      do! console_log "📄 Retrieved Context:" [ArgString (Some context)] in
      ret {| context := context; isRagWorking := true; ragSources := ragSources |}.

Definition retrieveContext (query : string) (knowledgeBaseId : option string)
    (n : option float) (bedrockClient : Bedrock.BedrockAgentRuntimeClient)
  : Eff RetrievedContext :=
  try_catch
    (retrieve_try query knowledgeBaseId (default_n n) bedrockClient)
    retrieve_catch.

(** ** [GET] (app/api/knowledgebases/route.ts) *)

(** [searchParams.get(name)]: the first value given for [name], else [null]. *)
Fixpoint searchParams_get (name : string) (params : list (string * string))
  : option string :=
  match params with
  | [] => None
  | (k, v) :: rest =>
      if String.eqb k name then Some v else searchParams_get name rest
  end.

(** The callback of [knowledgeBaseSummaries?.map(kb => ...)]. *)
Definition to_entry (kb : Bedrock.KnowledgeBaseSummary) : Eff KnowledgeBaseEntry :=
  let! updatedAt :=
    match Bedrock.kb_updatedAt kb with
    | Some d => let! iso := lift (Js.toISOString d) in ret (Some iso)
    | None => ret None
    end in
  ret {| entry_id := Bedrock.kb_knowledgeBaseId kb;
         entry_name := Bedrock.kb_name kb;
         entry_description := Bedrock.kb_description kb;
         entry_status := Bedrock.kb_status kb;
         entry_updatedAt := updatedAt |}.

(** The [catch] block of [GET]. *)
Definition list_catch (error : Js.Thrown) : Eff NextResponse :=
  do! console_error "Error fetching knowledge bases:" [ArgThrown error] in
  do! match error with
      | Js.ErrorObject name message stack =>
          do! console_error "Error name:" [ArgString (Some name)] in
          do! console_error "Error message:" [ArgString (Some message)] in
          console_error "Error stack:" [ArgString stack]
      | Js.NonError _ => ret tt
      end in
  ret {| body := ErrorBody "Failed to fetch knowledge bases"; status := 500 |}.

Definition GET (request : NextRequest) (registry : Bedrock.Registry)
  : Eff NextResponse :=
  let region := searchParams_get "region" (searchParams request) in
  if negb (Js.truthy_string region) then
    ret {| body := ErrorBody "Region is required"; status := 400 |}
  else
    let region := default "" region in
    try_catch
      (do! console_log "Sending request to AWS..." [] in
       let! response := await_list registry region in
       let! knowledgeBases :=
         match Bedrock.knowledgeBaseSummaries response with
         | Some summaries => map_eff to_entry summaries
         | None => ret []
         end in
       ret {| body := KnowledgeBasesBody knowledgeBases; status := 200 |})
      list_catch.

(** ** Notions the statements below are phrased with *)

(** A remote failure happened in a run of [retrieveContext]: the trace holds
    a retrieval call, and the client rejected it. *)
Definition remote_failure (client : Bedrock.BedrockAgentRuntimeClient)
    (t : list Event) : Prop :=
  exists input err,
    In (RetrieveSent input) t /\ Bedrock.send client input = inl err.

(** A match has text content: its [content] is present and holds a
    non-empty [text]. *)
Definition contains_text (r : Bedrock.KnowledgeBaseRetrievalResult) (t : string)
  : Prop :=
  exists c, Bedrock.content r = Some c /\ Bedrock.text c = Some t /\ t <> "".

(** A match lacks text content: no [content], no [text], or an empty one. *)
Definition lacks_text (r : Bedrock.KnowledgeBaseRetrievalResult) : Prop :=
  Bedrock.content r = None \/
  exists c, Bedrock.content r = Some c /\
            (Bedrock.text c = None \/ Bedrock.text c = Some "").

(** [texts_of matches texts]: [texts] are the texts of the matches that
    have one, in the order of [matches]; a match lacking text contributes
    nothing. *)
Inductive texts_of :
  list Bedrock.KnowledgeBaseRetrievalResult -> list string -> Prop :=
| texts_of_nil : texts_of [] []
| texts_of_skip r rs ts :
    lacks_text r -> texts_of rs ts -> texts_of (r :: rs) ts
| texts_of_keep r t rs ts :
    contains_text r t -> texts_of rs ts -> texts_of (r :: rs) (t :: ts).

(** A source locator without a usable last path segment: absent, empty, or
    ending in the separator. *)
Definition no_last_segment (locator : option string) : Prop :=
  locator = None \/ locator = Some "" \/
  exists prefix, locator = Some (prefix ++ "/").

(** What a fulfilled retrieval call is turned into. *)
Definition assembled (rawResults : list Bedrock.KnowledgeBaseRetrievalResult)
  : RetrievedContext :=
  let kept := List.filter has_text rawResults in
  {| context := Js.join (Js.LF ++ Js.LF) (map join_item (map content_text kept));
     isRagWorking := true;
     ragSources := imap to_source kept |}.

(** Whether a character occurs in a string. *)
Fixpoint occurs (c : ascii) (s : string) : bool :=
  match s with
  | EmptyString => false
  | String x rest => Ascii.eqb x c || occurs c rest
  end.

Definition is_digit (c : ascii) : bool :=
  match c with
  | "0" | "1" | "2" | "3" | "4" | "5" | "6" | "7" | "8" | "9" => true
  | _ => false
  end%char.

(** ** Concrete inputs used as examples and witnesses *)

(** A match as the remote service describes it: text, locator, score. *)
Definition match_of (t locator : string) (s : float)
  : Bedrock.KnowledgeBaseRetrievalResult :=
  {| Bedrock.content := Some {| Bedrock.text := Some t |};
     Bedrock.location :=
       Some {| Bedrock.s3Location := Some {| Bedrock.uri := Some locator |} |};
     Bedrock.score := Some s;
     Bedrock.metadata := None |}.

(** A match without any content. *)
Definition match_without_content (locator : string)
  : Bedrock.KnowledgeBaseRetrievalResult :=
  {| Bedrock.content := None;
     Bedrock.location :=
       Some {| Bedrock.s3Location := Some {| Bedrock.uri := Some locator |} |};
     Bedrock.score := Some 1%float;
     Bedrock.metadata := None |}.

(** A client whose [send] is fulfilled with the given response. *)
Definition client_answering (response : option Bedrock.RetrieveCommandOutput)
  : Bedrock.BedrockAgentRuntimeClient :=
  {| Bedrock.send := fun _ => inr response |}.

Definition client_returning (l : list Bedrock.KnowledgeBaseRetrievalResult)
  : Bedrock.BedrockAgentRuntimeClient :=
  client_answering (Some {| Bedrock.retrievalResults := Some l |}).

(** A client whose [send] is rejected. *)
Definition client_rejecting (err : Js.Thrown) : Bedrock.BedrockAgentRuntimeClient :=
  {| Bedrock.send := fun _ => inl err |}.

Definition network_error : Js.Thrown :=
  Js.ErrorObject "Error" "getaddrinfo ENOTFOUND" None.

Definition returns_match : Bedrock.KnowledgeBaseRetrievalResult :=
  match_of "Returns accepted within 30 days."
           "s3://bucket/policy_returns.txt" 0.9%float.

Definition refunds_match : Bedrock.KnowledgeBaseRetrievalResult :=
  match_of "Refunds issued to original payment method."
           "s3://bucket/policy_refunds.txt" 0.8%float.

(** A registry that answers every region with an empty list. *)
Definition empty_registry : Bedrock.Registry :=
  fun _ => inr {| Bedrock.knowledgeBaseSummaries := Some [] |}.

(** ** The client factories (app/lib/utils.ts) *)

(** The [credentials] object handed to a client constructor. *)
Record AwsCredentials : Type :=
  { accessKeyId : string;
    secretAccessKey : string }.

(** The configuration a client is constructed with.  An absent
    [credentials] leaves the choice to the SDK's default provider chain. *)
Record ClientConfig : Type :=
  { region : string;
    credentials : option AwsCredentials }.

(** [createBedrockAgentClient(region)]: the configuration passed to
    [new BedrockAgentRuntimeClient(...)], read from [process.env], a
    JavaScript object used as a map from variable names to strings. *)
Definition createBedrockAgentClient (env : gmap string string) (region : string)
  : ClientConfig :=
  {| region := region;
     credentials :=
       if Js.truthy_string (env !! "BAWS_ACCESS_KEY_ID")
          && Js.truthy_string (env !! "BAWS_SECRET_ACCESS_KEY")
       then Some {| accessKeyId := default "" (env !! "BAWS_ACCESS_KEY_ID");
                    secretAccessKey := default "" (env !! "BAWS_SECRET_ACCESS_KEY") |}
       else None |}.

(** [createBedrockClient(region)]: the configuration passed to
    [new BedrockRuntimeClient(...)]. *)
Definition createBedrockClient (env : gmap string string) (region : string)
  : ClientConfig :=
  {| region := region;
     credentials :=
       if Js.truthy_string (env !! "BAWS_ACCESS_KEY_ID")
          && Js.truthy_string (env !! "BAWS_SECRET_ACCESS_KEY")
       then Some {| accessKeyId := default "" (env !! "BAWS_ACCESS_KEY_ID");
                    secretAccessKey := default "" (env !! "BAWS_SECRET_ACCESS_KEY") |}
       else None |}.

(** ** Notions for the further properties *)

(** [response.knowledgeBaseSummaries], an absent list read as empty. *)
Definition summaries_of (response : Bedrock.ListKnowledgeBasesCommandOutput)
  : list Bedrock.KnowledgeBaseSummary :=
  default [] (Bedrock.knowledgeBaseSummaries response).

(** An entry of the answer renders a summary of the registry: the four
    plain fields are copied, and the timestamp, when there is one, is a
    valid date given in its ISO form. *)
Definition entry_of (kb : Bedrock.KnowledgeBaseSummary) (e : KnowledgeBaseEntry)
  : Prop :=
  entry_id e = Bedrock.kb_knowledgeBaseId kb
  /\ entry_name e = Bedrock.kb_name kb
  /\ entry_description e = Bedrock.kb_description kb
  /\ entry_status e = Bedrock.kb_status kb
  /\ ((Bedrock.kb_updatedAt kb = None /\ entry_updatedAt e = None)
      \/ exists iso, Bedrock.kb_updatedAt kb = Some (Js.ValidDate iso)
                     /\ entry_updatedAt e = Some iso).

(** A summary whose timestamp is the invalid date. *)
Definition invalid_date (kb : Bedrock.KnowledgeBaseSummary) : Prop :=
  Bedrock.kb_updatedAt kb = Some Js.InvalidDate.

(** The two answers of [GET] that report an error. *)
Definition region_required : NextResponse :=
  {| body := ErrorBody "Region is required"; status := 400 |}.

Definition fetch_failed : NextResponse :=
  {| body := ErrorBody "Failed to fetch knowledge bases"; status := 500 |}.

(** ** Further concrete inputs *)

Definition chunk_key : string := "x-amz-bedrock-kb-chunk-id".

(** A match that carries a chunk identifier in its metadata. *)
Definition match_with_chunk_id (t locator cid : string)
  : Bedrock.KnowledgeBaseRetrievalResult :=
  {| Bedrock.content := Some {| Bedrock.text := Some t |};
     Bedrock.location :=
       Some {| Bedrock.s3Location := Some {| Bedrock.uri := Some locator |} |};
     Bedrock.score := Some 1%float;
     Bedrock.metadata := Some {[ chunk_key := cid ]} |}.

Definition summary_of (kbId name : string) (updatedAt : option Js.Date)
  : Bedrock.KnowledgeBaseSummary :=
  {| Bedrock.kb_knowledgeBaseId := Some kbId;
     Bedrock.kb_name := Some name;
     Bedrock.kb_description := None;
     Bedrock.kb_status := Some "ACTIVE";
     Bedrock.kb_updatedAt := updatedAt |}.

(** A registry that answers every region with the given summaries. *)
Definition registry_listing (l : list Bedrock.KnowledgeBaseSummary)
  : Bedrock.Registry :=
  fun _ => inr {| Bedrock.knowledgeBaseSummaries := Some l |}.

(** A registry that rejects every request. *)
Definition registry_rejecting (err : Js.Thrown) : Bedrock.Registry :=
  fun _ => inl err.

Definition region_request (r : string) : NextRequest :=
  {| searchParams := [("region", r)] |}.

(** * Properties *)

(** ** Evaluating the primitives on small inputs *)

Example split_uri :
  Js.split "/" "s3://bucket/policy_returns.txt"
  = ["s3:"; ""; "bucket"; "policy_returns.txt"].
Proof. reflexivity. Qed.

Example split_without_separator : Js.split "/" "" = [""] /\ Js.split "/" "abc" = ["abc"].
Proof. split; reflexivity. Qed.

Example replace_first_is_leftmost :
  Js.replace_first ".txt" "" "a.txt.txt" = "a.txt".
Proof. reflexivity. Qed.

Example join_two : Js.join (Js.LF ++ Js.LF) ["a"; "b"] = "a" ++ Js.LF ++ Js.LF ++ "b".
Proof. reflexivity. Qed.

Example falsy_numbers :
  Js.or_number (Some nan) 0 = 0%float /\ Js.or_number None 0 = 0%float
  /\ Js.or_number (Some 0.9%float) 0 = 0.9%float.
Proof. repeat split; reflexivity. Qed.

(** ** Truthiness *)

Lemma truthy_string_Some (s : string) :
  s <> "" -> Js.truthy_string (Some s) = true.
Proof.
  intros Hs. unfold Js.truthy_string.
  apply negb_true_iff, String.eqb_neq, Hs.
Qed.

Lemma falsy_string_cases (o : option string) :
  Js.truthy_string o = false <-> o = None \/ o = Some "".
Proof.
  destruct o as [s|]; simpl.
  - rewrite negb_false_iff, String.eqb_eq. split.
    + intros ->. now right.
    + intros [H|H]; congruence.
  - split; [now left | reflexivity].
Qed.

Lemma or_string_truthy (s d : string) : s <> "" -> Js.or_string (Some s) d = s.
Proof.
  intros Hs. unfold Js.or_string.
  apply String.eqb_neq in Hs. now rewrite Hs.
Qed.

Lemma has_text_contains (r : Bedrock.KnowledgeBaseRetrievalResult) (t : string) :
  contains_text r t -> has_text r = true /\ content_text r = Some t.
Proof.
  intros (c & Hc & Ht & Hne). unfold has_text, content_text.
  rewrite Hc, Ht. split; [now apply truthy_string_Some | reflexivity].
Qed.

Lemma has_text_lacks (r : Bedrock.KnowledgeBaseRetrievalResult) :
  lacks_text r -> has_text r = false.
Proof.
  unfold has_text. intros [Hc | (c & Hc & [Ht | Ht])]; rewrite Hc; try rewrite Ht; reflexivity.
Qed.

(** ** Runs of [retrieveContext] *)

Lemma raw_results_list (l : list Bedrock.KnowledgeBaseRetrievalResult) :
  raw_results (Some {| Bedrock.retrievalResults := Some l |}) = l.
Proof. reflexivity. Qed.

(** An [undefined] response and a response without a result list both
    count as no matches. *)
Lemma raw_results_absent (response : option Bedrock.RetrieveCommandOutput) :
  response = None \/ response = Some {| Bedrock.retrievalResults := None |} ->
  raw_results response = [].
Proof. intros [-> | ->]; reflexivity. Qed.

(** On the matches the filter keeps, the callback [res => res.content.text]
    does not throw. *)
Lemma text_of_kept (l : list Bedrock.KnowledgeBaseRetrievalResult) :
  map_eff text_of (List.filter has_text l)
  = ret (map content_text (List.filter has_text l)).
Proof.
  induction l as [|r l IH]; simpl; [reflexivity|].
  destruct (has_text r) eqn:Hr; [|exact IH].
  simpl. rewrite IH. unfold has_text in Hr. unfold text_of, content_text.
  destruct (Bedrock.content r); [reflexivity | discriminate].
Qed.

Section Runs.

Variable query : string.
Variable n : option float.
Variable bedrockClient : Bedrock.BedrockAgentRuntimeClient.

(** Without an identifier the function logs one line and returns. *)
Lemma retrieveContext_without_id (knowledgeBaseId : option string) :
  Js.truthy_string knowledgeBaseId = false ->
  retrieveContext query knowledgeBaseId n bedrockClient
  = ([ConsoleError "knowledgeBaseId is not provided" []], inr not_working).
Proof.
  intros H. unfold retrieveContext, retrieve_try. rewrite H. reflexivity.
Qed.

Variable kb : string.
Hypothesis kb_given : kb <> "".

Let input := retrieve_input kb query (default_n n).

(** A rejected call is caught: one remote call, the fixed failure object. *)
Lemma retrieveContext_rejected (err : Js.Thrown) :
  Bedrock.send bedrockClient input = inl err ->
  exists first logs,
    retrieveContext query (Some kb) n bedrockClient
    = (first :: RetrieveSent input :: logs, inr not_working)
    /\ is_remote_call first = false /\ remote_calls logs = [].
Proof.
  intros Hsend. unfold retrieveContext, retrieve_try.
  rewrite (truthy_string_Some kb kb_given). simpl.
  unfold await_send. fold input. rewrite Hsend. simpl.
  destruct err; simpl; eexists _, _; (split; [reflexivity|split; reflexivity]).
Qed.

(** A fulfilled call: one remote call, and the assembled result. *)
Lemma retrieveContext_fulfilled (response : option Bedrock.RetrieveCommandOutput) :
  Bedrock.send bedrockClient input = inr response ->
  exists first logs,
    retrieveContext query (Some kb) n bedrockClient
    = (first :: RetrieveSent input :: logs, inr (assembled (raw_results response)))
    /\ is_remote_call first = false /\ remote_calls logs = [].
Proof.
  intros Hsend. unfold retrieveContext, retrieve_try.
  rewrite (truthy_string_Some kb kb_given). simpl.
  unfold await_send. fold input. rewrite Hsend. simpl.
  destruct (raw_results response) as [|r l] eqn:Hraw.
  - simpl. eexists _, _. split; [reflexivity|split; reflexivity].
  - change (Nat.eqb (length (r :: l)) 0) with false. cbv iota.
    rewrite text_of_kept. unfold assembled. simpl.
    eexists _, _. split; [reflexivity|split; reflexivity].
Qed.

End Runs.

(** ** Strings: last path segment and placeholder names *)

Lemma split_trailing_separator (sep : ascii) (s : string) :
  exists seg segs,
    Js.split sep (s ++ String sep "") = ((seg :: segs) ++ [""])%list.
Proof.
  induction s as [|c s (seg & segs & IH)]; simpl.
  - rewrite Ascii.eqb_refl. now exists "", [].
  - rewrite IH. destruct (Ascii.eqb c sep).
    + now exists "", (seg :: segs).
    + now exists (String c seg), segs.
Qed.

(** A locator that ends in the separator has an empty last segment. *)
Lemma pop_split_trailing (sep : ascii) (s : string) :
  Js.pop (Js.split sep (s ++ String sep "")) = Some "".
Proof.
  destruct (split_trailing_separator sep s) as (seg & segs & ->).
  unfold Js.pop. apply last_snoc.
Qed.

Lemma occurs_app (c : ascii) (s1 s2 : string) :
  occurs c (s1 ++ s2) = occurs c s1 || occurs c s2.
Proof.
  induction s1 as [|x s1 IH]; simpl; [reflexivity|].
  now rewrite IH, orb_assoc.
Qed.

Lemma replace_all_char_absent (c d : ascii) (s : string) :
  occurs c s = false -> Js.replace_all_char c d s = s.
Proof.
  induction s as [|x s IH]; simpl; [reflexivity|].
  intros H. apply orb_false_iff in H as [Hx Hs].
  now rewrite Hx, IH.
Qed.

Lemma strip_prefix_self (pat : string) : Js.strip_prefix pat pat = Some "".
Proof.
  induction pat as [|p pat IH]; simpl; [reflexivity|].
  now rewrite Ascii.eqb_refl.
Qed.

(** Removing a pattern whose first character does not occur before it. *)
Lemma replace_first_suffix (p : ascii) (pat' s : string) :
  occurs p s = false ->
  Js.replace_first (String p pat') "" (s ++ String p pat') = s.
Proof.
  induction s as [|x s IH]; intros H.
  - change ("" ++ String p pat') with (String p pat').
    destruct pat'; simpl; rewrite Ascii.eqb_refl; [reflexivity|].
    now rewrite Ascii.eqb_refl, strip_prefix_self.
  - simpl in H. apply orb_false_iff in H as [Hx Hs].
    simpl. rewrite Ascii.eqb_sym, Hx. now rewrite IH.
Qed.

(** A decimal numeral holds digits only. *)
Lemma numeral_digits (c : ascii) (d : Decimal.uint) :
  is_digit c = false -> occurs c (NilEmpty.string_of_uint d) = false.
Proof.
  intros Hc.
  induction d; cbn [occurs NilEmpty.string_of_uint]; try reflexivity;
    rewrite IHd, orb_false_r; apply Ascii.eqb_neq; intros <-; discriminate.
Qed.

Lemma placeholder_name (i : nat) :
  Js.replace_first ".txt" ""
    (Js.replace_all_char "_" " " ("Source-" ++ Js.index_to_string i ++ ".txt"))
  = "Source-" ++ Js.index_to_string i.
Proof.
  unfold Js.index_to_string.
  set (ds := NilEmpty.string_of_uint (Nat.to_uint i)).
  assert (Hu : occurs "_" ds = false) by (now apply numeral_digits).
  assert (Hd : occurs "." ds = false) by (now apply numeral_digits).
  assert (Hskip : forall s, Js.replace_first ".txt" "" ("Source-" ++ s)
                            = "Source-" ++ Js.replace_first ".txt" "" s)
    by reflexivity.
  assert (Hkeep : forall s, occurs "_" ("Source-" ++ s) = occurs "_" s)
    by reflexivity.
  rewrite replace_all_char_absent.
  - rewrite Hskip. f_equal. now apply replace_first_suffix.
  - now rewrite Hkeep, occurs_app, Hu.
Qed.

(** The display name of a match whose locator has no last segment. *)
Lemma to_source_placeholder (i : nat) (r : Bedrock.KnowledgeBaseRetrievalResult) :
  no_last_segment (s3_uri r) ->
  fileName (to_source i r) = "Source-" ++ Js.index_to_string i.
Proof.
  intros H. unfold to_source. cbn [fileName].
  assert (Hpop : Js.pop (Js.split "/" (Js.or_string (s3_uri r) "")) = Some "").
  { destruct H as [-> | [-> | (p & ->)]]; try reflexivity.
    unfold Js.or_string. destruct (String.eqb (p ++ "/") ""); [reflexivity|].
    apply pop_split_trailing. }
  rewrite Hpop. cbn [Js.or_string String.eqb]. apply placeholder_name.
Qed.

Lemma split_cons (sep : ascii) (s : string) :
  exists seg segs, Js.split sep s = seg :: segs.
Proof.
  destruct s as [|c s]; simpl; [now eexists _, _|].
  destruct (Ascii.eqb c sep); [now eexists _, _|].
  destruct (Js.split sep s); now eexists _, _.
Qed.

(** Only the empty string and the strings ending in the separator have an
    empty last segment. *)
Lemma pop_split_empty (sep : ascii) (s : string) :
  Js.pop (Js.split sep s) = Some "" ->
  s = "" \/ exists prefix, s = prefix ++ String sep "".
Proof.
  unfold Js.pop. induction s as [|c s IH]; [now left|].
  intros Hlast. right. simpl in Hlast.
  destruct (split_cons sep s) as (seg & segs & Hs). rewrite Hs in *.
  destruct (Ascii.eqb_spec c sep) as [-> | Hc].
  - change (last (seg :: segs) = Some "") in Hlast.
    destruct (IH Hlast) as [-> | [p ->]]; [now exists "" | now exists (String sep p)].
  - destruct segs as [|seg' segs]; [discriminate|].
    change (last (seg :: seg' :: segs) = Some "") in Hlast.
    destruct (IH Hlast) as [-> | [p ->]]; [discriminate | now exists (String c p)].
Qed.

(** [no_last_segment] is exactly the case in which the code finds an empty
    last segment and falls back to the placeholder. *)
Lemma no_last_segment_iff (locator : option string) :
  no_last_segment locator
  <-> Js.pop (Js.split "/" (Js.or_string locator "")) = Some "".
Proof.
  split.
  - intros [-> | [-> | (p & ->)]]; try reflexivity.
    unfold Js.or_string. destruct (String.eqb (p ++ "/") ""); [reflexivity|].
    apply pop_split_trailing.
  - destruct locator as [u|]; [|now left]. unfold Js.or_string.
    destruct (String.eqb_spec u "") as [-> | Hu]; [right; now left|].
    intros H. apply pop_split_empty in H as [-> | [p ->]]; [now destruct Hu|].
    right. right. now exists p.
Qed.

(** A locator with a last segment: the name is taken from it. *)
Example to_source_named :
  fileName (to_source 4 (match_of "t" "s3://bucket/dir/a_b_c.txt" 1%float)) = "a b c"
  /\ fileName (to_source 4 (match_of "t" "s3://bucket/dir/" 1%float)) = "Source-4".
Proof. split; reflexivity. Qed.

(** ** Lists of matches *)

Lemma texts_of_all (rs : list Bedrock.KnowledgeBaseRetrievalResult)
    (ts : list string) :
  Forall2 contains_text rs ts -> texts_of rs ts.
Proof.
  induction 1 as [|r t rs ts Hr _ IH]; [apply texts_of_nil|].
  now apply texts_of_keep.
Qed.

(** Every match either has text or lacks it, so every list of matches has
    its list of texts. *)
Lemma text_or_not (r : Bedrock.KnowledgeBaseRetrievalResult) :
  lacks_text r \/ exists t, contains_text r t.
Proof.
  unfold lacks_text, contains_text.
  destruct (Bedrock.content r) as [c|]; [|left; left; reflexivity].
  destruct (Bedrock.text c) as [t|] eqn:Ht.
  - destruct (String.eqb_spec t "") as [-> | Hne].
    + left. right. exists c. split; [reflexivity | now right].
    + right. exists t, c. repeat split; assumption.
  - left. right. exists c. split; [reflexivity | now left].
Qed.

Lemma texts_of_total (rs : list Bedrock.KnowledgeBaseRetrievalResult) :
  exists ts, texts_of rs ts.
Proof.
  induction rs as [|r rs [ts IH]]; [exists []; constructor|].
  destruct (text_or_not r) as [Hr | [t Hr]].
  - exists ts. now constructor.
  - exists (t :: ts). now constructor.
Qed.

Lemma kept_all (rs : list Bedrock.KnowledgeBaseRetrievalResult) (ts : list string) :
  Forall2 contains_text rs ts -> List.filter has_text rs = rs.
Proof.
  induction 1 as [|r t rs ts Hr _ IH]; simpl; [reflexivity|].
  destruct (has_text_contains r t Hr) as [-> _]. now rewrite IH.
Qed.

(** The texts the context is joined from. *)
Lemma kept_texts (rs : list Bedrock.KnowledgeBaseRetrievalResult) (ts : list string) :
  texts_of rs ts ->
  map join_item (map content_text (List.filter has_text rs)) = ts.
Proof.
  induction 1 as [|r rs ts Hr _ IH|r t rs ts Hr _ IH]; simpl.
  - reflexivity.
  - now rewrite (has_text_lacks r Hr).
  - destruct (has_text_contains r t Hr) as [-> Ht]. simpl.
    now rewrite Ht, IH.
Qed.

(** The snippets of the sources, whatever index each source is given. *)
Lemma kept_snippets (rs : list Bedrock.KnowledgeBaseRetrievalResult)
    (ts : list string) (f : nat -> nat) :
  texts_of rs ts ->
  map snippet (imap (fun i => to_source (f i)) (List.filter has_text rs)) = ts.
Proof.
  intros H. revert f.
  induction H as [|r rs ts Hr _ IH|r t rs ts Hr _ IH]; intros f; simpl.
  - reflexivity.
  - rewrite (has_text_lacks r Hr). apply IH.
  - destruct (has_text_contains r t Hr) as [-> Ht].
    rewrite imap_cons. simpl. f_equal.
    + rewrite Ht. destruct Hr as (_ & _ & _ & Hne). now apply or_string_truthy.
    + apply (IH (fun i => f (S i))).
Qed.

Lemma filter_without (l1 l2 : list Bedrock.KnowledgeBaseRetrievalResult)
    (r : Bedrock.KnowledgeBaseRetrievalResult) :
  lacks_text r ->
  List.filter has_text (l1 ++ r :: l2) = List.filter has_text (l1 ++ l2).
Proof.
  intros Hr. rewrite !List.filter_app. simpl.
  now rewrite (has_text_lacks r Hr).
Qed.

(** In a run with a single retrieval call, a call found in the trace is
    that one. *)
Lemma only_call (first : Event) (input input' : Bedrock.RetrieveCommandInput)
    (logs : list Event) :
  is_remote_call first = false -> remote_calls logs = [] ->
  In (RetrieveSent input') (first :: RetrieveSent input :: logs) ->
  input' = input.
Proof.
  intros Hfirst Hlogs [H | [H | H]].
  - subst first. discriminate.
  - congruence.
  - assert (Hin : In (RetrieveSent input') (remote_calls logs))
      by (apply List.filter_In; now split).
    rewrite Hlogs in Hin. destruct Hin.
Qed.

(** A run with an identifier makes exactly one remote call. *)
Lemma retrieveContext_one_call (query kb : string) (n : option float)
    (bedrockClient : Bedrock.BedrockAgentRuntimeClient) :
  kb <> "" ->
  remote_calls (trace (retrieveContext query (Some kb) n bedrockClient))
  = [RetrieveSent (retrieve_input kb query (default_n n))].
Proof.
  intros Hkb.
  destruct (Bedrock.send bedrockClient (retrieve_input kb query (default_n n)))
    as [err | response] eqn:Hsend.
  - destruct (retrieveContext_rejected query n bedrockClient kb Hkb err Hsend)
      as (first & logs & -> & Hfirst & Hlogs).
    unfold remote_calls in *. simpl. now rewrite Hfirst, Hlogs.
  - destruct (retrieveContext_fulfilled query n bedrockClient kb Hkb response Hsend)
      as (first & logs & -> & Hfirst & Hlogs).
    unfold remote_calls in *. simpl. now rewrite Hfirst, Hlogs.
Qed.

(** [retrieveContext] never throws: every run returns an object. *)
Lemma retrieveContext_returns (query : string) (kb : option string)
    (n : option float) (bedrockClient : Bedrock.BedrockAgentRuntimeClient) :
  exists res, completion (retrieveContext query kb n bedrockClient) = inr res.
Proof.
  destruct (Js.truthy_string kb) eqn:Hkb.
  - destruct kb as [s|]; [|discriminate].
    assert (Hs : s <> "").
    { intros ->. discriminate. }
    destruct (Bedrock.send bedrockClient (retrieve_input s query (default_n n)))
      as [err | response] eqn:Hsend.
    + destruct (retrieveContext_rejected query n bedrockClient s Hs err Hsend)
        as (first & logs & -> & _). now eexists.
    + destruct (retrieveContext_fulfilled query n bedrockClient s Hs response Hsend)
        as (first & logs & -> & _). now eexists.
  - rewrite retrieveContext_without_id by exact Hkb. now eexists.
Qed.

(** ** The claims about [retrieveContext] *)

(** C1, as stated, fails: with an empty identifier the flag is [false]
    although no remote call was made at all, so none failed, and the client
    at hand would have answered. *)
Lemma C1_flag_false_without_failure :
  (exists res,
      completion (retrieveContext "What is your return policy?" (Some "") None
                    (client_returning [returns_match])) = inr res
      /\ isRagWorking res = false)
  /\ ~ remote_failure (client_returning [returns_match])
         (trace (retrieveContext "What is your return policy?" (Some "") None
                   (client_returning [returns_match]))).
Proof.
  split.
  - exists not_working. split; reflexivity.
  - intros (input & err & _ & Hsend). discriminate Hsend.
Qed.

(** C1, amended: every run of [retrieveContext] returns, and the flag
    [isRagWorking] of what it returns is [false] exactly when the identifier
    was absent or empty (no remote call is made) or the remote call failed;
    every other run, a reachable service with zero matches included, returns
    [isRagWorking = true]. *)
Theorem C1_flag_false_iff_no_id_or_remote_failure
    (query : string) (knowledgeBaseId : option string) (n : option float)
    (bedrockClient : Bedrock.BedrockAgentRuntimeClient) :
  exists res,
    completion (retrieveContext query knowledgeBaseId n bedrockClient) = inr res
    /\ (isRagWorking res = false <->
        (knowledgeBaseId = None \/ knowledgeBaseId = Some "")
        \/ remote_failure bedrockClient
             (trace (retrieveContext query knowledgeBaseId n bedrockClient))).
Proof.
  destruct (Js.truthy_string knowledgeBaseId) eqn:Hkb.
  - destruct knowledgeBaseId as [kb|]; [|discriminate].
    assert (Hs : kb <> "") by (intros ->; discriminate).
    assert (Hgiven : ~ (Some kb = None \/ Some kb = Some ""))
      by (intros [H|H]; congruence).
    destruct (Bedrock.send bedrockClient (retrieve_input kb query (default_n n)))
      as [err | response] eqn:Hsend.
    + destruct (retrieveContext_rejected query n bedrockClient kb Hs err Hsend)
        as (first & logs & -> & _).
      exists not_working. split; [reflexivity|]. split; [|reflexivity].
      intros _. right. exists (retrieve_input kb query (default_n n)), err.
      split; [|exact Hsend]. right. now left.
    + destruct (retrieveContext_fulfilled query n bedrockClient kb Hs response Hsend)
        as (first & logs & -> & Hfirst & Hlogs).
      eexists. split; [reflexivity|]. split; [discriminate|].
      intros [H | (input' & err & Hin & Hrej)]; [now destruct Hgiven|].
      apply (only_call first _ input' logs Hfirst Hlogs) in Hin. subst input'.
      congruence.
  - rewrite retrieveContext_without_id by exact Hkb.
    exists not_working. split; [reflexivity|]. split; [|reflexivity].
    intros _. left. now apply falsy_string_cases.
Qed.

(** C2: with a non-empty identifier, when the remote call succeeds and
    returns zero matches, the result is [isRagWorking = true] with an empty
    context string and an empty source list. *)
Theorem C2_zero_matches_is_success
    (query kb : string) (n : option float)
    (bedrockClient : Bedrock.BedrockAgentRuntimeClient) :
  kb <> "" ->
  Bedrock.send bedrockClient (retrieve_input kb query (default_n n))
  = inr (Some {| Bedrock.retrievalResults := Some [] |}) ->
  completion (retrieveContext query (Some kb) n bedrockClient)
  = inr {| context := ""; isRagWorking := true; ragSources := [] |}.
Proof.
  intros Hkb Hsend.
  destruct (retrieveContext_fulfilled query n bedrockClient kb Hkb _ Hsend)
    as (first & logs & -> & _).
  reflexivity.
Qed.

Lemma C2_zero_matches_witness :
  "KB123" <> ""
  /\ Bedrock.send (client_returning [])
       (retrieve_input "KB123" "anything" (default_n None))
     = inr (Some {| Bedrock.retrievalResults := Some [] |})
  /\ completion (retrieveContext "anything" (Some "KB123") None (client_returning []))
     = inr {| context := ""; isRagWorking := true; ragSources := [] |}.
Proof.
  split; [discriminate|]. split; [reflexivity|].
  apply (C2_zero_matches_is_success "anything" "KB123" None (client_returning []));
    [discriminate | reflexivity].
Defined.

(** C3: for a successful response with N >= 1 matches that all contain
    text, the context is the N texts joined in the order returned with a
    blank line between consecutive entries, and the source list has exactly
    N entries, in the same order. *)
Theorem C3_context_and_sources_in_order
    (query kb : string) (n : option float)
    (bedrockClient : Bedrock.BedrockAgentRuntimeClient)
    (matches : list Bedrock.KnowledgeBaseRetrievalResult) (texts : list string) :
  kb <> "" ->
  Bedrock.send bedrockClient (retrieve_input kb query (default_n n))
  = inr (Some {| Bedrock.retrievalResults := Some matches |}) ->
  1 <= length matches ->
  Forall2 contains_text matches texts ->
  exists res,
    completion (retrieveContext query (Some kb) n bedrockClient) = inr res
    /\ isRagWorking res = true
    /\ context res = Js.join (Js.LF ++ Js.LF) texts
    /\ length (ragSources res) = length matches
    /\ map snippet (ragSources res) = texts.
Proof.
  intros Hkb Hsend _ Hall.
  destruct (retrieveContext_fulfilled query n bedrockClient kb Hkb _ Hsend)
    as (first & logs & -> & _).
  pose proof (texts_of_all matches texts Hall) as Htexts.
  eexists. split; [reflexivity|].
  rewrite raw_results_list. unfold assembled.
  cbn [isRagWorking context ragSources].
  rewrite (kept_texts matches texts Htexts). repeat split.
  - now rewrite length_imap, (kept_all matches texts Hall).
  - apply (kept_snippets matches texts (fun i => i) Htexts).
Qed.

Lemma C3_context_and_sources_witness :
  "KB123" <> ""
  /\ Bedrock.send (client_returning [returns_match; refunds_match])
       (retrieve_input "KB123" "q" (default_n None))
     = inr (Some {| Bedrock.retrievalResults := Some [returns_match; refunds_match] |})
  /\ 1 <= length [returns_match; refunds_match]
  /\ Forall2 contains_text [returns_match; refunds_match]
       ["Returns accepted within 30 days.";
        "Refunds issued to original payment method."]
  /\ exists res,
      completion (retrieveContext "q" (Some "KB123") None
                    (client_returning [returns_match; refunds_match])) = inr res
      /\ isRagWorking res = true
      /\ context res
         = Js.join (Js.LF ++ Js.LF)
             ["Returns accepted within 30 days.";
              "Refunds issued to original payment method."]
      /\ length (ragSources res) = length [returns_match; refunds_match]
      /\ map snippet (ragSources res)
         = ["Returns accepted within 30 days.";
            "Refunds issued to original payment method."].
Proof.
  assert (Hall : Forall2 contains_text [returns_match; refunds_match]
                   ["Returns accepted within 30 days.";
                    "Refunds issued to original payment method."]).
  { repeat constructor; eexists; (split; [reflexivity|split; [reflexivity|discriminate]]). }
  split; [discriminate|]. split; [reflexivity|]. split; [simpl; lia|].
  split; [exact Hall|].
  apply (C3_context_and_sources_in_order "q" "KB123" None
           (client_returning [returns_match; refunds_match])
           [returns_match; refunds_match]
           ["Returns accepted within 30 days.";
            "Refunds issued to original payment method."]);
    [discriminate | reflexivity | simpl; lia | exact Hall].
Defined.

(** C4: when the identifier is empty or absent, [retrieveContext] returns at
    once an empty context string, an empty source list and
    [isRagWorking = false], and the client's [send] is not invoked. *)
Theorem C4_no_id_returns_without_remote_call
    (query : string) (knowledgeBaseId : option string) (n : option float)
    (bedrockClient : Bedrock.BedrockAgentRuntimeClient) :
  knowledgeBaseId = None \/ knowledgeBaseId = Some "" ->
  completion (retrieveContext query knowledgeBaseId n bedrockClient)
  = inr {| context := ""; isRagWorking := false; ragSources := [] |}
  /\ remote_calls (trace (retrieveContext query knowledgeBaseId n bedrockClient)) = [].
Proof.
  intros H. apply falsy_string_cases in H.
  rewrite retrieveContext_without_id by exact H. split; reflexivity.
Qed.

Lemma C4_no_id_witness :
  ((None : option string) = None \/ (None : option string) = Some "")
  /\ completion (retrieveContext "hello" None (Some 5%float)
                   (client_returning [returns_match]))
     = inr {| context := ""; isRagWorking := false; ragSources := [] |}
  /\ remote_calls (trace (retrieveContext "hello" None (Some 5%float)
                            (client_returning [returns_match]))) = [].
Proof.
  split; [now left|].
  apply (C4_no_id_returns_without_remote_call "hello" None (Some 5%float)
           (client_returning [returns_match])).
  now left.
Defined.

(** C5: with a non-empty identifier, when the remote call throws, whatever
    the error, [retrieveContext] returns exactly an empty context string, an
    empty source list and [isRagWorking = false]: the error is not thrown
    again and is no part of the value returned. *)
Theorem C5_remote_error_is_caught
    (query kb : string) (n : option float)
    (bedrockClient : Bedrock.BedrockAgentRuntimeClient) (err : Js.Thrown) :
  kb <> "" ->
  Bedrock.send bedrockClient (retrieve_input kb query (default_n n)) = inl err ->
  completion (retrieveContext query (Some kb) n bedrockClient)
  = inr {| context := ""; isRagWorking := false; ragSources := [] |}.
Proof.
  intros Hkb Hsend.
  destruct (retrieveContext_rejected query n bedrockClient kb Hkb err Hsend)
    as (first & logs & -> & _).
  reflexivity.
Qed.

Lemma C5_remote_error_witness :
  "KB123" <> ""
  /\ Bedrock.send (client_rejecting network_error)
       (retrieve_input "KB123" "hello" (default_n None)) = inl network_error
  /\ completion (retrieveContext "hello" (Some "KB123") None
                   (client_rejecting network_error))
     = inr {| context := ""; isRagWorking := false; ragSources := [] |}.
Proof.
  split; [discriminate|]. split; [reflexivity|].
  apply (C5_remote_error_is_caught "hello" "KB123" None
           (client_rejecting network_error) network_error);
    [discriminate | reflexivity].
Defined.

(** C6: for the query "What is your return policy?" and the identifier
    "KB123", when the remote service returns the returns match and then the
    refunds match, the context is the two texts with a blank line between
    them, the two sources are named "policy returns" and "policy refunds"
    with scores 0.9 and 0.8, and [isRagWorking] is [true]. *)
Theorem C6_return_policy_scenario
    (n : option float) (bedrockClient : Bedrock.BedrockAgentRuntimeClient) :
  Bedrock.send bedrockClient
    (retrieve_input "KB123" "What is your return policy?" (default_n n))
  = inr (Some {| Bedrock.retrievalResults := Some [returns_match; refunds_match] |}) ->
  completion (retrieveContext "What is your return policy?" (Some "KB123") n
                bedrockClient)
  = inr {| context :=
             "Returns accepted within 30 days." ++ Js.LF ++ Js.LF
             ++ "Refunds issued to original payment method.";
           isRagWorking := true;
           ragSources :=
             [ {| id := "chunk-0";
                  fileName := "policy returns";
                  snippet := "Returns accepted within 30 days.";
                  score := 0.9%float |};
               {| id := "chunk-1";
                  fileName := "policy refunds";
                  snippet := "Refunds issued to original payment method.";
                  score := 0.8%float |} ] |}.
Proof.
  intros Hsend.
  assert (Hkb : "KB123" <> "") by discriminate.
  destruct (retrieveContext_fulfilled _ n bedrockClient "KB123" Hkb _ Hsend)
    as (first & logs & -> & _).
  reflexivity.
Qed.

Lemma C6_return_policy_witness :
  Bedrock.send (client_returning [returns_match; refunds_match])
    (retrieve_input "KB123" "What is your return policy?" (default_n None))
  = inr (Some {| Bedrock.retrievalResults := Some [returns_match; refunds_match] |})
  /\ completion (retrieveContext "What is your return policy?" (Some "KB123") None
                   (client_returning [returns_match; refunds_match]))
     = inr {| context :=
                "Returns accepted within 30 days." ++ Js.LF ++ Js.LF
                ++ "Refunds issued to original payment method.";
              isRagWorking := true;
              ragSources :=
                [ {| id := "chunk-0";
                     fileName := "policy returns";
                     snippet := "Returns accepted within 30 days.";
                     score := 0.9%float |};
                  {| id := "chunk-1";
                     fileName := "policy refunds";
                     snippet := "Refunds issued to original payment method.";
                     score := 0.8%float |} ] |}.
Proof.
  split; [reflexivity|].
  apply (C6_return_policy_scenario None
           (client_returning [returns_match; refunds_match])).
  reflexivity.
Defined.

(** A response holding a match without text is turned into the very
    result of the response without that match. *)
Lemma retrieveContext_ignores_match_without_text
    (query kb : string) (n : option float)
    (withIt withoutIt : Bedrock.BedrockAgentRuntimeClient)
    (before after : list Bedrock.KnowledgeBaseRetrievalResult)
    (r : Bedrock.KnowledgeBaseRetrievalResult) :
  kb <> "" ->
  lacks_text r ->
  Bedrock.send withIt (retrieve_input kb query (default_n n))
  = inr (Some {| Bedrock.retrievalResults := Some (before ++ r :: after)%list |}) ->
  Bedrock.send withoutIt (retrieve_input kb query (default_n n))
  = inr (Some {| Bedrock.retrievalResults := Some (before ++ after)%list |}) ->
  completion (retrieveContext query (Some kb) n withIt)
  = completion (retrieveContext query (Some kb) n withoutIt).
Proof.
  intros Hkb Hr Hwith Hwithout.
  destruct (retrieveContext_fulfilled query n withIt kb Hkb _ Hwith)
    as (first & logs & -> & _).
  destruct (retrieveContext_fulfilled query n withoutIt kb Hkb _ Hwithout)
    as (first' & logs' & -> & _).
  rewrite !raw_results_list. unfold assembled, completion. simpl.
  now rewrite (filter_without before after r Hr).
Qed.

(** C7: for every successful response, a match lacking text content is
    excluded from both the context string and the source list: the context
    is joined from the texts of the matches that have text, and the sources
    are, one for one and in order, those same matches. *)
Theorem C7_only_matches_with_text_contribute
    (query kb : string) (n : option float)
    (bedrockClient : Bedrock.BedrockAgentRuntimeClient)
    (matches : list Bedrock.KnowledgeBaseRetrievalResult) (texts : list string) :
  kb <> "" ->
  Bedrock.send bedrockClient (retrieve_input kb query (default_n n))
  = inr (Some {| Bedrock.retrievalResults := Some matches |}) ->
  texts_of matches texts ->
  exists res,
    completion (retrieveContext query (Some kb) n bedrockClient) = inr res
    /\ context res = Js.join (Js.LF ++ Js.LF) texts
    /\ map snippet (ragSources res) = texts.
Proof.
  intros Hkb Hsend Htexts.
  destruct (retrieveContext_fulfilled query n bedrockClient kb Hkb _ Hsend)
    as (first & logs & -> & _).
  eexists. split; [reflexivity|].
  rewrite raw_results_list. unfold assembled. cbn [context ragSources].
  rewrite (kept_texts matches texts Htexts). split; [reflexivity|].
  apply (kept_snippets matches texts (fun i => i) Htexts).
Qed.

Lemma C7_only_matches_with_text_witness :
  "KB123" <> ""
  /\ Bedrock.send
       (client_returning
          [returns_match; match_without_content "s3://bucket/empty.txt";
           refunds_match])
       (retrieve_input "KB123" "q" (default_n None))
     = inr (Some {| Bedrock.retrievalResults :=
                      Some [returns_match;
                            match_without_content "s3://bucket/empty.txt";
                            refunds_match] |})
  /\ texts_of
       [returns_match; match_without_content "s3://bucket/empty.txt";
        refunds_match]
       ["Returns accepted within 30 days.";
        "Refunds issued to original payment method."]
  /\ exists res,
      completion (retrieveContext "q" (Some "KB123") None
                    (client_returning
                       [returns_match;
                        match_without_content "s3://bucket/empty.txt";
                        refunds_match])) = inr res
      /\ context res
         = Js.join (Js.LF ++ Js.LF)
             ["Returns accepted within 30 days.";
              "Refunds issued to original payment method."]
      /\ map snippet (ragSources res)
         = ["Returns accepted within 30 days.";
            "Refunds issued to original payment method."].
Proof.
  assert (Htexts : texts_of
            [returns_match; match_without_content "s3://bucket/empty.txt";
             refunds_match]
            ["Returns accepted within 30 days.";
             "Refunds issued to original payment method."]).
  { apply texts_of_keep;
      [eexists; (split; [reflexivity|split; [reflexivity|discriminate]])|].
    apply texts_of_skip; [now left|].
    apply texts_of_keep;
      [eexists; (split; [reflexivity|split; [reflexivity|discriminate]])|].
    apply texts_of_nil. }
  split; [discriminate|]. split; [reflexivity|]. split; [exact Htexts|].
  apply (C7_only_matches_with_text_contribute "q" "KB123" None
           (client_returning
              [returns_match; match_without_content "s3://bucket/empty.txt";
               refunds_match])
           [returns_match; match_without_content "s3://bucket/empty.txt";
            refunds_match]
           ["Returns accepted within 30 days.";
            "Refunds issued to original payment method."]);
    [discriminate | reflexivity | exact Htexts].
Defined.

Lemma has_text_true (r : Bedrock.KnowledgeBaseRetrievalResult) :
  has_text r = true -> exists t, contains_text r t.
Proof.
  intros H. destruct (text_or_not r) as [Hr | Hr]; [|exact Hr].
  rewrite (has_text_lacks r Hr) in H. discriminate.
Qed.

(** C8: for every match whose source locator is absent or yields no
    non-empty last segment, the source record of that match carries the
    positional placeholder name [Source-<index>], and no exception is
    thrown: the run returns. *)
Theorem C8_placeholder_display_name
    (query kb : string) (n : option float)
    (bedrockClient : Bedrock.BedrockAgentRuntimeClient)
    (matches : list Bedrock.KnowledgeBaseRetrievalResult)
    (index : nat) (r : Bedrock.KnowledgeBaseRetrievalResult) :
  kb <> "" ->
  Bedrock.send bedrockClient (retrieve_input kb query (default_n n))
  = inr (Some {| Bedrock.retrievalResults := Some matches |}) ->
  List.filter has_text matches !! index = Some r ->
  no_last_segment (s3_uri r) ->
  exists res src t,
    completion (retrieveContext query (Some kb) n bedrockClient) = inr res
    /\ ragSources res !! index = Some src
    /\ contains_text r t /\ snippet src = t
    /\ fileName src = "Source-" ++ Js.index_to_string index.
Proof.
  intros Hkb Hsend Hat Hloc.
  destruct (retrieveContext_fulfilled query n bedrockClient kb Hkb _ Hsend)
    as (first & logs & -> & _).
  assert (Hr : has_text r = true).
  { apply list_elem_of_lookup_2, list_elem_of_In in Hat.
    now apply List.filter_In in Hat. }
  destruct (has_text_true r Hr) as [t Ht].
  exists (assembled matches), (to_source index r), t.
  split; [reflexivity|]. split; [|split; [exact Ht|split]].
  - unfold assembled. cbn [ragSources].
    now rewrite list_lookup_imap, Hat.
  - destruct (has_text_contains r t Ht) as [_ Hc].
    unfold to_source. cbn [snippet]. rewrite Hc.
    destruct Ht as (_ & _ & _ & Hne). now apply or_string_truthy.
  - now apply to_source_placeholder.
Qed.

Lemma C8_placeholder_witness :
  "KB123" <> ""
  /\ Bedrock.send
       (client_returning
          [returns_match; match_without_content "s3://bucket/empty.txt";
           match_of "Ships in two days." "s3://bucket/" 0.5%float])
       (retrieve_input "KB123" "q" (default_n None))
     = inr (Some {| Bedrock.retrievalResults :=
                      Some [returns_match;
                            match_without_content "s3://bucket/empty.txt";
                            match_of "Ships in two days." "s3://bucket/" 0.5%float] |})
  /\ List.filter has_text
       [returns_match; match_without_content "s3://bucket/empty.txt";
        match_of "Ships in two days." "s3://bucket/" 0.5%float] !! 1
     = Some (match_of "Ships in two days." "s3://bucket/" 0.5%float)
  /\ no_last_segment (s3_uri (match_of "Ships in two days." "s3://bucket/" 0.5%float))
  /\ exists res src t,
      completion (retrieveContext "q" (Some "KB123") None
                    (client_returning
                       [returns_match;
                        match_without_content "s3://bucket/empty.txt";
                        match_of "Ships in two days." "s3://bucket/" 0.5%float]))
      = inr res
      /\ ragSources res !! 1 = Some src
      /\ contains_text (match_of "Ships in two days." "s3://bucket/" 0.5%float) t
      /\ snippet src = t
      /\ fileName src = "Source-" ++ Js.index_to_string 1.
Proof.
  assert (Hloc : no_last_segment
                   (s3_uri (match_of "Ships in two days." "s3://bucket/" 0.5%float))).
  { right. right. exists "s3://bucket". reflexivity. }
  split; [discriminate|]. split; [reflexivity|]. split; [reflexivity|].
  split; [exact Hloc|].
  apply (C8_placeholder_display_name "q" "KB123" None
           (client_returning
              [returns_match; match_without_content "s3://bucket/empty.txt";
               match_of "Ships in two days." "s3://bucket/" 0.5%float])
           [returns_match; match_without_content "s3://bucket/empty.txt";
            match_of "Ships in two days." "s3://bucket/" 0.5%float]
           1 (match_of "Ships in two days." "s3://bucket/" 0.5%float));
    [discriminate | reflexivity | reflexivity | exact Hloc].
Defined.

(** C10: with a non-empty identifier, when the remote call succeeds but the
    response has no result list, the function treats it as zero matches: it
    returns [isRagWorking = true] with an empty context string and an empty
    source list. *)
Theorem C10_absent_result_list_is_zero_matches
    (query kb : string) (n : option float)
    (bedrockClient : Bedrock.BedrockAgentRuntimeClient)
    (response : Bedrock.RetrieveCommandOutput) :
  kb <> "" ->
  Bedrock.send bedrockClient (retrieve_input kb query (default_n n))
  = inr (Some response) ->
  Bedrock.retrievalResults response = None ->
  completion (retrieveContext query (Some kb) n bedrockClient)
  = inr {| context := ""; isRagWorking := true; ragSources := [] |}.
Proof.
  intros Hkb Hsend Habsent.
  destruct (retrieveContext_fulfilled query n bedrockClient kb Hkb _ Hsend)
    as (first & logs & -> & _).
  unfold raw_results. rewrite Habsent. reflexivity.
Qed.

Lemma C10_absent_result_list_witness :
  "KB123" <> ""
  /\ Bedrock.send
       (client_answering (Some {| Bedrock.retrievalResults := None |}))
       (retrieve_input "KB123" "q" (default_n None))
     = inr (Some {| Bedrock.retrievalResults := None |})
  /\ Bedrock.retrievalResults {| Bedrock.retrievalResults := None |} = None
  /\ completion (retrieveContext "q" (Some "KB123") None
                   (client_answering (Some {| Bedrock.retrievalResults := None |})))
     = inr {| context := ""; isRagWorking := true; ragSources := [] |}.
Proof.
  split; [discriminate|]. split; [reflexivity|]. split; [reflexivity|].
  apply (C10_absent_result_list_is_zero_matches "q" "KB123" None
           (client_answering (Some {| Bedrock.retrievalResults := None |}))
           {| Bedrock.retrievalResults := None |});
    [discriminate | reflexivity | reflexivity].
Defined.

(** An [undefined] response is handled the same way. *)
Lemma retrieveContext_undefined_response
    (query kb : string) (n : option float)
    (bedrockClient : Bedrock.BedrockAgentRuntimeClient) :
  kb <> "" ->
  Bedrock.send bedrockClient (retrieve_input kb query (default_n n)) = inr None ->
  completion (retrieveContext query (Some kb) n bedrockClient)
  = inr {| context := ""; isRagWorking := true; ragSources := [] |}.
Proof.
  intros Hkb Hsend.
  destruct (retrieveContext_fulfilled query n bedrockClient kb Hkb _ Hsend)
    as (first & logs & -> & _).
  reflexivity.
Qed.

(** ** The claims about [GET] *)

(** C9: when the region parameter is missing or the empty string, [GET]
    answers with status 400 and an error payload, and no request is issued
    to the remote registry. *)
Theorem C9_missing_region_is_client_error
    (request : NextRequest) (registry : Bedrock.Registry) :
  searchParams_get "region" (searchParams request) = None
  \/ searchParams_get "region" (searchParams request) = Some "" ->
  completion (GET request registry)
  = inr {| body := ErrorBody "Region is required"; status := 400 |}
  /\ remote_calls (trace (GET request registry)) = [].
Proof.
  intros H. apply falsy_string_cases in H.
  unfold GET. rewrite H. split; reflexivity.
Qed.

Lemma C9_missing_region_witness :
  (searchParams_get "region" (searchParams {| searchParams := [("region", "")] |})
   = None
   \/ searchParams_get "region" (searchParams {| searchParams := [("region", "")] |})
      = Some "")
  /\ completion (GET {| searchParams := [("region", "")] |} empty_registry)
     = inr {| body := ErrorBody "Region is required"; status := 400 |}
  /\ remote_calls (trace (GET {| searchParams := [("region", "")] |} empty_registry))
     = [].
Proof.
  split; [now right|].
  apply (C9_missing_region_is_client_error
           {| searchParams := [("region", "")] |} empty_registry).
  now right.
Defined.

(** A request without any region parameter, and one with a region. *)
Example GET_without_parameter :
  GET {| searchParams := [("page", "2")] |} empty_registry
  = ([], inr {| body := ErrorBody "Region is required"; status := 400 |}).
Proof. reflexivity. Qed.

Example GET_with_region :
  GET {| searchParams := [("region", "us-east-1")] |} empty_registry
  = ([ConsoleLog "Sending request to AWS..." [];
      ListKnowledgeBasesSent "us-east-1"],
     inr {| body := KnowledgeBasesBody []; status := 200 |}).
Proof. reflexivity. Qed.

(** A failure of the registry is answered with status 500 and a generic
    error payload. *)
Lemma GET_remote_failure (request : NextRequest) (registry : Bedrock.Registry)
    (region : string) (err : Js.Thrown) :
  searchParams_get "region" (searchParams request) = Some region ->
  region <> "" ->
  registry region = inl err ->
  completion (GET request registry)
  = inr {| body := ErrorBody "Failed to fetch knowledge bases"; status := 500 |}.
Proof.
  intros Hget Hne Hreg. unfold GET. rewrite Hget.
  rewrite (truthy_string_Some region Hne). simpl.
  unfold await_list. rewrite Hreg. destruct err; reflexivity.
Qed.

(** * Further properties of [retrieveContext] *)

(** Every run ends in one of two ways: with the fixed failure object, or,
    after a fulfilled call, with the assembled result. *)
Lemma retrieveContext_cases (query : string) (knowledgeBaseId : option string)
    (n : option float) (bedrockClient : Bedrock.BedrockAgentRuntimeClient) :
  completion (retrieveContext query knowledgeBaseId n bedrockClient)
  = inr not_working
  \/ exists kb response,
      knowledgeBaseId = Some kb /\ kb <> ""
      /\ Bedrock.send bedrockClient (retrieve_input kb query (default_n n))
         = inr response
      /\ completion (retrieveContext query knowledgeBaseId n bedrockClient)
         = inr (assembled (raw_results response)).
Proof.
  destruct (Js.truthy_string knowledgeBaseId) eqn:Hkb.
  - destruct knowledgeBaseId as [kb|]; [|discriminate].
    assert (Hs : kb <> "") by (intros ->; discriminate).
    destruct (Bedrock.send bedrockClient (retrieve_input kb query (default_n n)))
      as [err | response] eqn:Hsend.
    + destruct (retrieveContext_rejected query n bedrockClient kb Hs err Hsend)
        as (first & logs & -> & _). now left.
    + destruct (retrieveContext_fulfilled query n bedrockClient kb Hs response Hsend)
        as (first & logs & -> & _). right. now exists kb, response.
  - rewrite retrieveContext_without_id by exact Hkb. now left.
Qed.

(** The request that goes out carries the identifier and the query as
    given, and asks for [n] results, 3 when [n] is left out; it is the only
    remote call of the run. *)
Theorem retrieveContext_single_request
    (query kb : string) (n : option float)
    (bedrockClient : Bedrock.BedrockAgentRuntimeClient) :
  kb <> "" ->
  exists input,
    remote_calls (trace (retrieveContext query (Some kb) n bedrockClient))
    = [RetrieveSent input]
    /\ Bedrock.knowledgeBaseId input = kb
    /\ Bedrock.query_text (Bedrock.retrievalQuery input) = query
    /\ Bedrock.numberOfResults
         (Bedrock.vectorSearchConfiguration (Bedrock.retrievalConfiguration input))
       = match n with Some x => x | None => 3%float end.
Proof.
  intros Hkb. exists (retrieve_input kb query (default_n n)).
  split; [now apply retrieveContext_one_call|].
  destruct n; repeat split.
Qed.

Lemma retrieveContext_single_request_witness :
  "KB123" <> ""
  /\ exists input,
      remote_calls (trace (retrieveContext "" (Some "KB123") None
                             (client_rejecting network_error)))
      = [RetrieveSent input]
      /\ Bedrock.knowledgeBaseId input = "KB123"
      /\ Bedrock.query_text (Bedrock.retrievalQuery input) = ""
      /\ Bedrock.numberOfResults
           (Bedrock.vectorSearchConfiguration (Bedrock.retrievalConfiguration input))
         = 3%float.
Proof.
  split; [discriminate|].
  apply (retrieveContext_single_request "" "KB123" None
           (client_rejecting network_error)).
  discriminate.
Defined.

(** No run makes more than one remote call. *)
Theorem retrieveContext_at_most_one_call
    (query : string) (knowledgeBaseId : option string) (n : option float)
    (bedrockClient : Bedrock.BedrockAgentRuntimeClient) :
  length (remote_calls (trace (retrieveContext query knowledgeBaseId n bedrockClient)))
  <= 1.
Proof.
  destruct (Js.truthy_string knowledgeBaseId) eqn:Hkb.
  - destruct knowledgeBaseId as [kb|]; [|discriminate].
    assert (Hs : kb <> "") by (intros ->; discriminate).
    rewrite (retrieveContext_one_call query kb n bedrockClient Hs). simpl. lia.
  - rewrite retrieveContext_without_id by exact Hkb. simpl. lia.
Qed.

(** A rejected call is not silent: the thrown value is written to the
    error console. *)
Theorem retrieveContext_logs_failure
    (query kb : string) (n : option float)
    (bedrockClient : Bedrock.BedrockAgentRuntimeClient) (err : Js.Thrown) :
  kb <> "" ->
  Bedrock.send bedrockClient (retrieve_input kb query (default_n n)) = inl err ->
  In (ConsoleError "RAG Error:" [ArgThrown err])
     (trace (retrieveContext query (Some kb) n bedrockClient)).
Proof.
  intros Hkb Hsend. unfold retrieveContext, retrieve_try.
  rewrite (truthy_string_Some kb Hkb). simpl.
  unfold await_send. rewrite Hsend.
  destruct err; simpl; right; right; now left.
Qed.

Lemma retrieveContext_logs_failure_witness :
  "KB123" <> ""
  /\ Bedrock.send (client_rejecting (Js.NonError "timeout"))
       (retrieve_input "KB123" "q" (default_n None)) = inl (Js.NonError "timeout")
  /\ In (ConsoleError "RAG Error:" [ArgThrown (Js.NonError "timeout")])
        (trace (retrieveContext "q" (Some "KB123") None
                  (client_rejecting (Js.NonError "timeout")))).
Proof.
  split; [discriminate|]. split; [reflexivity|].
  apply (retrieveContext_logs_failure "q" "KB123" None
           (client_rejecting (Js.NonError "timeout")) (Js.NonError "timeout"));
    [discriminate | reflexivity].
Defined.

(** ** The context and the sources agree *)

Lemma texts_of_nonempty (rs : list Bedrock.KnowledgeBaseRetrievalResult)
    (ts : list string) :
  texts_of rs ts -> Forall (fun t => t <> "") ts.
Proof.
  induction 1 as [|r rs ts _ _ IH|r t rs ts Hr _ IH]; [constructor|exact IH|].
  constructor; [|exact IH]. now destruct Hr as (_ & _ & _ & Hne).
Qed.

Lemma join_empty (sep : string) (ts : list string) :
  Forall (fun t => t <> "") ts -> Js.join sep ts = "" -> ts = [].
Proof.
  intros Hts. destruct Hts as [|t ts Ht _]; [reflexivity|].
  unfold Js.join. simpl. intros H. exfalso. apply Ht.
  destruct ts; [exact H|]. destruct t; [reflexivity|discriminate].
Qed.

Lemma assembled_texts (rawResults : list Bedrock.KnowledgeBaseRetrievalResult) :
  exists ts,
    Forall (fun t => t <> "") ts
    /\ context (assembled rawResults) = Js.join (Js.LF ++ Js.LF) ts
    /\ map snippet (ragSources (assembled rawResults)) = ts.
Proof.
  destruct (texts_of_total rawResults) as [ts Hts]. exists ts.
  split; [now apply (texts_of_nonempty rawResults)|].
  unfold assembled. cbn [context ragSources].
  rewrite (kept_texts rawResults ts Hts). split; [reflexivity|].
  apply (kept_snippets rawResults ts (fun i => i) Hts).
Qed.

(** Whatever the inputs and the answer of the service, the context returned
    is the snippets of the sources returned, in order, with a blank line
    between them. *)
Theorem retrieveContext_context_is_joined_snippets
    (query : string) (knowledgeBaseId : option string) (n : option float)
    (bedrockClient : Bedrock.BedrockAgentRuntimeClient) :
  exists res,
    completion (retrieveContext query knowledgeBaseId n bedrockClient) = inr res
    /\ context res = Js.join (Js.LF ++ Js.LF) (map snippet (ragSources res)).
Proof.
  destruct (retrieveContext_cases query knowledgeBaseId n bedrockClient)
    as [-> | (kb & response & _ & _ & _ & ->)].
  - exists not_working. split; reflexivity.
  - exists (assembled (raw_results response)). split; [reflexivity|].
    destruct (assembled_texts (raw_results response)) as (ts & _ & -> & ->).
    reflexivity.
Qed.

(** The context is empty exactly when there is no source; and no source
    ever has an empty snippet. *)
Theorem retrieveContext_context_empty_iff_no_source
    (query : string) (knowledgeBaseId : option string) (n : option float)
    (bedrockClient : Bedrock.BedrockAgentRuntimeClient) :
  exists res,
    completion (retrieveContext query knowledgeBaseId n bedrockClient) = inr res
    /\ (context res = "" <-> ragSources res = [])
    /\ Forall (fun src => snippet src <> "") (ragSources res).
Proof.
  destruct (retrieveContext_cases query knowledgeBaseId n bedrockClient)
    as [-> | (kb & response & _ & _ & _ & ->)].
  - exists not_working. split; [reflexivity|]. split; [now split|constructor].
  - exists (assembled (raw_results response)). split; [reflexivity|].
    destruct (assembled_texts (raw_results response)) as (ts & Hts & Hc & Hs).
    split; [split|].
    + intros H. rewrite Hc in H. apply (join_empty _ ts Hts) in H.
      rewrite H in Hs. now destruct (ragSources (assembled (raw_results response))).
    + intros H. rewrite H in Hs. rewrite Hc, <- Hs. reflexivity.
    + rewrite <- Hs in Hts. clear Hs Hc.
      induction (ragSources (assembled (raw_results response))) as [|src l IH];
        [constructor|].
      inversion Hts; subst. constructor; auto.
Qed.

(** ** Matches without text *)

(** When the service answers with matches none of which has text, the
    result is that of an answer with no match at all: success, an empty
    context, no source. *)
Theorem retrieveContext_no_text_at_all
    (query kb : string) (n : option float)
    (bedrockClient : Bedrock.BedrockAgentRuntimeClient)
    (matches : list Bedrock.KnowledgeBaseRetrievalResult) :
  kb <> "" ->
  Bedrock.send bedrockClient (retrieve_input kb query (default_n n))
  = inr (Some {| Bedrock.retrievalResults := Some matches |}) ->
  Forall lacks_text matches ->
  completion (retrieveContext query (Some kb) n bedrockClient)
  = inr {| context := ""; isRagWorking := true; ragSources := [] |}.
Proof.
  intros Hkb Hsend Hall.
  assert (Hnone : List.filter has_text matches = []).
  { clear Hsend. induction Hall as [|r rs Hr _ IH]; simpl; [reflexivity|].
    now rewrite (has_text_lacks r Hr). }
  destruct (retrieveContext_fulfilled query n bedrockClient kb Hkb _ Hsend)
    as (first & logs & -> & _).
  rewrite raw_results_list. unfold assembled, completion. simpl.
  now rewrite Hnone.
Qed.

Lemma retrieveContext_no_text_at_all_witness :
  "KB123" <> ""
  /\ Bedrock.send
       (client_returning [match_without_content "s3://bucket/a.txt";
                          match_of "" "s3://bucket/b.txt" 0.5%float])
       (retrieve_input "KB123" "q" (default_n None))
     = inr (Some {| Bedrock.retrievalResults :=
                      Some [match_without_content "s3://bucket/a.txt";
                            match_of "" "s3://bucket/b.txt" 0.5%float] |})
  /\ Forall lacks_text [match_without_content "s3://bucket/a.txt";
                        match_of "" "s3://bucket/b.txt" 0.5%float]
  /\ completion (retrieveContext "q" (Some "KB123") None
                   (client_returning [match_without_content "s3://bucket/a.txt";
                                      match_of "" "s3://bucket/b.txt" 0.5%float]))
     = inr {| context := ""; isRagWorking := true; ragSources := [] |}.
Proof.
  assert (Hall : Forall lacks_text [match_without_content "s3://bucket/a.txt";
                                    match_of "" "s3://bucket/b.txt" 0.5%float]).
  { constructor; [now left|]. constructor; [|constructor].
    right. eexists. split; [reflexivity | now right]. }
  split; [discriminate|]. split; [reflexivity|]. split; [exact Hall|].
  apply (retrieveContext_no_text_at_all "q" "KB123" None
           (client_returning [match_without_content "s3://bucket/a.txt";
                              match_of "" "s3://bucket/b.txt" 0.5%float])
           [match_without_content "s3://bucket/a.txt";
            match_of "" "s3://bucket/b.txt" 0.5%float]);
    [discriminate | reflexivity | exact Hall].
Defined.

Lemma retrieveContext_ignores_match_without_text_witness :
  "KB123" <> ""
  /\ lacks_text (match_without_content "s3://bucket/empty.txt")
  /\ Bedrock.send
       (client_returning
          [returns_match; match_without_content "s3://bucket/empty.txt";
           refunds_match])
       (retrieve_input "KB123" "q" (default_n None))
     = inr (Some {| Bedrock.retrievalResults :=
                      Some [returns_match;
                            match_without_content "s3://bucket/empty.txt";
                            refunds_match] |})
  /\ Bedrock.send (client_returning [returns_match; refunds_match])
       (retrieve_input "KB123" "q" (default_n None))
     = inr (Some {| Bedrock.retrievalResults :=
                      Some [returns_match; refunds_match] |})
  /\ completion (retrieveContext "q" (Some "KB123") None
                   (client_returning
                      [returns_match;
                       match_without_content "s3://bucket/empty.txt";
                       refunds_match]))
     = completion (retrieveContext "q" (Some "KB123") None
                     (client_returning [returns_match; refunds_match])).
Proof.
  split; [discriminate|]. split; [now left|].
  split; [reflexivity|]. split; [reflexivity|].
  apply (retrieveContext_ignores_match_without_text "q" "KB123" None
           (client_returning
              [returns_match; match_without_content "s3://bucket/empty.txt";
               refunds_match])
           (client_returning [returns_match; refunds_match])
           [returns_match] [refunds_match]
           (match_without_content "s3://bucket/empty.txt"));
    [discriminate | now left | reflexivity | reflexivity].
Defined.

Lemma retrieveContext_undefined_response_witness :
  "KB123" <> ""
  /\ Bedrock.send (client_answering None)
       (retrieve_input "KB123" "q" (default_n None)) = inr None
  /\ completion (retrieveContext "q" (Some "KB123") None (client_answering None))
     = inr {| context := ""; isRagWorking := true; ragSources := [] |}.
Proof.
  split; [discriminate|]. split; [reflexivity|].
  apply (retrieveContext_undefined_response "q" "KB123" None (client_answering None));
    [discriminate | reflexivity].
Defined.

(** ** What every source record satisfies *)

Lemma occurs_replace_all_char (c d : ascii) (s : string) :
  c <> d -> occurs c (Js.replace_all_char c d s) = false.
Proof.
  intros Hcd. induction s as [|x s IH]; [reflexivity|].
  cbn [Js.replace_all_char occurs]. rewrite IH, orb_false_r.
  destruct (Ascii.eqb_spec x c) as [_ | Hx]; apply Ascii.eqb_neq; congruence.
Qed.

Lemma occurs_strip_prefix (c : ascii) (pat s rest : string) :
  Js.strip_prefix pat s = Some rest -> occurs c s = false -> occurs c rest = false.
Proof.
  revert s. induction pat as [|p pat IH]; intros s; simpl.
  - intros [= ->]. auto.
  - destruct s as [|x s]; [discriminate|].
    destruct (Ascii.eqb p x); [|discriminate].
    intros Hrest Hs. cbn [occurs] in Hs. apply orb_false_iff in Hs as [_ Hs].
    now apply (IH s).
Qed.

(** Deleting an occurrence of a pattern brings in no new character. *)
Lemma occurs_replace_first (c : ascii) (pat s : string) :
  occurs c s = false -> occurs c (Js.replace_first pat "" s) = false.
Proof.
  induction s as [|x s IH]; intros Hs.
  - simpl. destruct (Js.strip_prefix pat "") as [rest|] eqn:Hp; [|reflexivity].
    now apply (occurs_strip_prefix c pat "" rest).
  - cbn [Js.replace_first].
    destruct (Js.strip_prefix pat (String x s)) as [rest|] eqn:Hp.
    + now apply (occurs_strip_prefix c pat (String x s) rest).
    + cbn [occurs] in *. apply orb_false_iff in Hs as [Hx Hs].
      now rewrite Hx, IH.
Qed.

Lemma to_source_no_underscore (i : nat) (r : Bedrock.KnowledgeBaseRetrievalResult) :
  occurs "_" (fileName (to_source i r)) = false.
Proof.
  unfold to_source. cbn [fileName].
  apply occurs_replace_first, occurs_replace_all_char. discriminate.
Qed.

(** The fallback [|| 0] leaves no [NaN] behind. *)
Lemma or_number_not_nan (o : option float) :
  PrimFloat.eqb (Js.or_number o 0) (Js.or_number o 0) = true.
Proof.
  unfold Js.or_number. destruct o as [x|]; [|reflexivity].
  destruct (Js.truthy_number x) eqn:Hx; [|reflexivity].
  unfold Js.truthy_number in Hx. now apply andb_true_iff in Hx as [_ Hx].
Qed.

(** In every result, no display name holds an underscore and no score is
    [NaN]. *)
Theorem retrieveContext_sources_well_formed
    (query : string) (knowledgeBaseId : option string) (n : option float)
    (bedrockClient : Bedrock.BedrockAgentRuntimeClient) :
  exists res,
    completion (retrieveContext query knowledgeBaseId n bedrockClient) = inr res
    /\ Forall (fun src => occurs "_" (fileName src) = false
                          /\ PrimFloat.eqb (score src) (score src) = true)
         (ragSources res).
Proof.
  destruct (retrieveContext_cases query knowledgeBaseId n bedrockClient)
    as [-> | (kb & response & _ & _ & _ & ->)].
  - exists not_working. split; [reflexivity|constructor].
  - exists (assembled (raw_results response)). split; [reflexivity|].
    unfold assembled. cbn [ragSources]. apply Forall_lookup.
    intros i src Hsrc. rewrite list_lookup_imap in Hsrc.
    destruct (List.filter has_text (raw_results response) !! i) as [r|];
      [|discriminate].
    injection Hsrc as <-. split.
    + apply to_source_no_underscore.
    + unfold to_source. cbn [score]. apply or_number_not_nan.
Qed.

(** ** The record built for one match *)

(** The source at a position is built from the match at that position
    among the matches that have text. *)
Lemma source_at (query kb : string) (n : option float)
    (bedrockClient : Bedrock.BedrockAgentRuntimeClient)
    (matches : list Bedrock.KnowledgeBaseRetrievalResult)
    (index : nat) (r : Bedrock.KnowledgeBaseRetrievalResult) :
  kb <> "" ->
  Bedrock.send bedrockClient (retrieve_input kb query (default_n n))
  = inr (Some {| Bedrock.retrievalResults := Some matches |}) ->
  List.filter has_text matches !! index = Some r ->
  exists res,
    completion (retrieveContext query (Some kb) n bedrockClient) = inr res
    /\ ragSources res !! index = Some (to_source index r).
Proof.
  intros Hkb Hsend Hat.
  destruct (retrieveContext_fulfilled query n bedrockClient kb Hkb _ Hsend)
    as (first & logs & -> & _).
  exists (assembled matches). split; [reflexivity|].
  unfold assembled. cbn [ragSources]. now rewrite list_lookup_imap, Hat.
Qed.

(** The identifier of a source is the chunk identifier of the metadata when
    there is a non-empty one, and otherwise [chunk-<index>], the index
    counting the matches that have text. *)
Theorem source_id_from_metadata_or_position
    (query kb : string) (n : option float)
    (bedrockClient : Bedrock.BedrockAgentRuntimeClient)
    (matches : list Bedrock.KnowledgeBaseRetrievalResult)
    (index : nat) (r : Bedrock.KnowledgeBaseRetrievalResult) :
  kb <> "" ->
  Bedrock.send bedrockClient (retrieve_input kb query (default_n n))
  = inr (Some {| Bedrock.retrievalResults := Some matches |}) ->
  List.filter has_text matches !! index = Some r ->
  exists res src,
    completion (retrieveContext query (Some kb) n bedrockClient) = inr res
    /\ ragSources res !! index = Some src
    /\ (forall m cid,
          Bedrock.metadata r = Some m ->
          m !! "x-amz-bedrock-kb-chunk-id" = Some cid -> cid <> "" ->
          id src = cid)
    /\ (Bedrock.metadata r = None
        \/ (exists m, Bedrock.metadata r = Some m
                      /\ (m !! "x-amz-bedrock-kb-chunk-id" = None
                          \/ m !! "x-amz-bedrock-kb-chunk-id" = Some "")) ->
        id src = "chunk-" ++ Js.index_to_string index).
Proof.
  intros Hkb Hsend Hat.
  destruct (source_at query kb n bedrockClient matches index r Hkb Hsend Hat)
    as (res & Hres & Hsrc).
  exists res, (to_source index r). split; [exact Hres|]. split; [exact Hsrc|].
  unfold to_source, chunk_id. cbn [id]. split.
  - intros m cid -> -> Hcid. now apply or_string_truthy.
  - intros [-> | (m & -> & [-> | ->])]; reflexivity.
Qed.

Lemma source_id_witness :
  "KB123" <> ""
  /\ Bedrock.send
       (client_returning
          [match_without_content "s3://bucket/empty.txt"; returns_match;
           match_with_chunk_id "Ships in two days." "s3://bucket/shipping.txt" "c-42"])
       (retrieve_input "KB123" "q" (default_n None))
     = inr (Some {| Bedrock.retrievalResults :=
                      Some [match_without_content "s3://bucket/empty.txt";
                            returns_match;
                            match_with_chunk_id "Ships in two days."
                              "s3://bucket/shipping.txt" "c-42"] |})
  /\ List.filter has_text
       [match_without_content "s3://bucket/empty.txt"; returns_match;
        match_with_chunk_id "Ships in two days." "s3://bucket/shipping.txt" "c-42"]
       !! 1
     = Some (match_with_chunk_id "Ships in two days." "s3://bucket/shipping.txt" "c-42")
  /\ exists res src,
      completion (retrieveContext "q" (Some "KB123") None
                    (client_returning
                       [match_without_content "s3://bucket/empty.txt";
                        returns_match;
                        match_with_chunk_id "Ships in two days."
                          "s3://bucket/shipping.txt" "c-42"])) = inr res
      /\ ragSources res !! 1 = Some src
      /\ (forall m cid,
            Bedrock.metadata
              (match_with_chunk_id "Ships in two days." "s3://bucket/shipping.txt" "c-42")
            = Some m ->
            m !! "x-amz-bedrock-kb-chunk-id" = Some cid -> cid <> "" ->
            id src = cid)
      /\ (Bedrock.metadata
            (match_with_chunk_id "Ships in two days." "s3://bucket/shipping.txt" "c-42")
          = None
          \/ (exists m,
                Bedrock.metadata
                  (match_with_chunk_id "Ships in two days."
                     "s3://bucket/shipping.txt" "c-42") = Some m
                /\ (m !! "x-amz-bedrock-kb-chunk-id" = None
                    \/ m !! "x-amz-bedrock-kb-chunk-id" = Some "")) ->
          id src = "chunk-" ++ Js.index_to_string 1).
Proof.
  split; [discriminate|]. split; [reflexivity|]. split; [reflexivity|].
  apply (source_id_from_metadata_or_position "q" "KB123" None
           (client_returning
              [match_without_content "s3://bucket/empty.txt"; returns_match;
               match_with_chunk_id "Ships in two days." "s3://bucket/shipping.txt" "c-42"])
           [match_without_content "s3://bucket/empty.txt"; returns_match;
            match_with_chunk_id "Ships in two days." "s3://bucket/shipping.txt" "c-42"]
           1
           (match_with_chunk_id "Ships in two days." "s3://bucket/shipping.txt" "c-42"));
    [discriminate | reflexivity | reflexivity].
Defined.

Example source_id_examples :
  id (to_source 1 (match_with_chunk_id "t" "s3://b/f.txt" "c-42")) = "c-42"
  /\ id (to_source 1 (match_with_chunk_id "t" "s3://b/f.txt" "")) = "chunk-1"
  /\ id (to_source 12 returns_match) = "chunk-12".
Proof. repeat split; vm_compute; reflexivity. Qed.

(** *** Display names *)

Lemma split_without_sep (sep : ascii) (s : string) :
  occurs sep s = false -> Js.split sep s = [s].
Proof.
  induction s as [|c s IH]; [reflexivity|].
  cbn [occurs Js.split]. intros H. apply orb_false_iff in H as [Hc Hs].
  now rewrite Hc, IH.
Qed.

Lemma split_last_segment (sep : ascii) (s seg : string) :
  occurs sep seg = false ->
  exists first rest,
    Js.split sep (s ++ String sep seg) = ((first :: rest) ++ [seg])%list.
Proof.
  intros Hseg. induction s as [|c s (first & rest & IH)].
  - change ("" ++ String sep seg) with (String sep seg). cbn [Js.split].
    rewrite Ascii.eqb_refl, split_without_sep by exact Hseg.
    now exists "", [].
  - change (String c s ++ String sep seg) with (String c (s ++ String sep seg)).
    cbn [Js.split]. rewrite IH. destruct (Ascii.eqb c sep).
    + now exists "", (first :: rest).
    + now exists (String c first), rest.
Qed.

Lemma replace_all_char_app (c d : ascii) (s1 s2 : string) :
  Js.replace_all_char c d (s1 ++ s2)
  = Js.replace_all_char c d s1 ++ Js.replace_all_char c d s2.
Proof.
  induction s1 as [|x s1 IH]; [reflexivity|].
  change (String x s1 ++ s2) with (String x (s1 ++ s2)).
  cbn [Js.replace_all_char]. now rewrite IH.
Qed.

Lemma occurs_replace_all_other (x c d : ascii) (s : string) :
  x <> c -> x <> d ->
  occurs x (Js.replace_all_char c d s) = occurs x s.
Proof.
  intros Hc Hd. induction s as [|y s IH]; [reflexivity|].
  cbn [Js.replace_all_char occurs]. rewrite IH. f_equal.
  destruct (Ascii.eqb_spec y c) as [-> | _]; [|reflexivity].
  transitivity false; [|symmetry]; apply Ascii.eqb_neq; congruence.
Qed.

Lemma to_source_display_name (i : nat) (r : Bedrock.KnowledgeBaseRetrievalResult)
    (dir stem : string) :
  s3_uri r = Some (dir ++ "/" ++ stem ++ ".txt") ->
  occurs "/" stem = false -> occurs "." stem = false ->
  fileName (to_source i r) = Js.replace_all_char "_" " " stem.
Proof.
  intros Huri Hslash Hdot. unfold to_source. cbn [fileName]. rewrite Huri.
  rewrite or_string_truthy by (destruct dir; discriminate).
  assert (Hseg : occurs "/" (stem ++ ".txt") = false)
    by (now rewrite occurs_app, Hslash).
  destruct (split_last_segment "/" dir (stem ++ ".txt") Hseg) as (first & rest & Hs).
  change (dir ++ "/" ++ stem ++ ".txt") with (dir ++ String "/" (stem ++ ".txt")).
  rewrite Hs. unfold Js.pop. rewrite last_snoc.
  rewrite or_string_truthy by (destruct stem; discriminate).
  rewrite replace_all_char_app.
  change (Js.replace_all_char "_" " " ".txt") with ".txt".
  apply replace_first_suffix.
  rewrite occurs_replace_all_other by discriminate. exact Hdot.
Qed.

(** For a locator [<dir>/<stem>.txt] whose stem holds no dot, the display
    name is the stem with every underscore turned into a space. *)
Theorem source_display_name_from_locator
    (query kb : string) (n : option float)
    (bedrockClient : Bedrock.BedrockAgentRuntimeClient)
    (matches : list Bedrock.KnowledgeBaseRetrievalResult)
    (index : nat) (r : Bedrock.KnowledgeBaseRetrievalResult)
    (dir stem : string) :
  kb <> "" ->
  Bedrock.send bedrockClient (retrieve_input kb query (default_n n))
  = inr (Some {| Bedrock.retrievalResults := Some matches |}) ->
  List.filter has_text matches !! index = Some r ->
  s3_uri r = Some (dir ++ "/" ++ stem ++ ".txt") ->
  occurs "/" stem = false -> occurs "." stem = false ->
  exists res src,
    completion (retrieveContext query (Some kb) n bedrockClient) = inr res
    /\ ragSources res !! index = Some src
    /\ fileName src = Js.replace_all_char "_" " " stem.
Proof.
  intros Hkb Hsend Hat Huri Hslash Hdot.
  destruct (source_at query kb n bedrockClient matches index r Hkb Hsend Hat)
    as (res & Hres & Hsrc).
  exists res, (to_source index r). split; [exact Hres|]. split; [exact Hsrc|].
  now apply (to_source_display_name index r dir stem).
Qed.

Lemma source_display_name_witness :
  "KB123" <> ""
  /\ Bedrock.send (client_returning [returns_match; refunds_match])
       (retrieve_input "KB123" "q" (default_n None))
     = inr (Some {| Bedrock.retrievalResults := Some [returns_match; refunds_match] |})
  /\ List.filter has_text [returns_match; refunds_match] !! 1 = Some refunds_match
  /\ s3_uri refunds_match = Some ("s3://bucket" ++ "/" ++ "policy_refunds" ++ ".txt")
  /\ occurs "/" "policy_refunds" = false
  /\ occurs "." "policy_refunds" = false
  /\ exists res src,
      completion (retrieveContext "q" (Some "KB123") None
                    (client_returning [returns_match; refunds_match])) = inr res
      /\ ragSources res !! 1 = Some src
      /\ fileName src = Js.replace_all_char "_" " " "policy_refunds".
Proof.
  split; [discriminate|]. do 5 (split; [reflexivity|]).
  apply (source_display_name_from_locator "q" "KB123" None
           (client_returning [returns_match; refunds_match])
           [returns_match; refunds_match] 1 refunds_match
           "s3://bucket" "policy_refunds"); try reflexivity.
  discriminate.
Defined.

(** Only the leftmost [.txt] is removed, wherever it stands. *)
Example display_name_inner_txt :
  fileName (to_source 0 (match_of "t" "s3://bucket/notes.txt.bak" 1%float)) = "notes.bak"
  /\ fileName (to_source 0 (match_of "t" "s3://bucket/a.txt.txt" 1%float)) = "a.txt"
  /\ fileName (to_source 0 (match_of "t" "s3://bucket/report.pdf" 1%float)) = "report.pdf".
Proof. repeat split; reflexivity. Qed.

(** * Further properties of [GET] *)

Lemma to_entry_cases (kb : Bedrock.KnowledgeBaseSummary) :
  (exists e, to_entry kb = ret e /\ entry_of kb e)
  \/ (invalid_date kb /\ exists err, to_entry kb = throw err).
Proof.
  unfold to_entry, invalid_date, entry_of.
  destruct (Bedrock.kb_updatedAt kb) as [[iso|]|] eqn:Hd.
  - left. eexists. split; [reflexivity|]. cbn. repeat split. right. now exists iso.
  - right. split; [reflexivity|]. eexists. reflexivity.
  - left. eexists. split; [reflexivity|]. cbn. repeat split. now left.
Qed.

(** Rendering the summaries either gives an entry for each, in order, or
    stops at an invalid date with nothing kept. *)
Lemma map_eff_to_entry (l : list Bedrock.KnowledgeBaseSummary) :
  (exists entries, map_eff to_entry l = ret entries /\ Forall2 entry_of l entries)
  \/ (Exists invalid_date l /\ exists err, map_eff to_entry l = throw err).
Proof.
  induction l as [|kb l IH]; [left; exists []; split; [reflexivity|constructor]|].
  cbn [map_eff].
  destruct (to_entry_cases kb) as [(e & -> & He) | (Hbad & err & ->)].
  - destruct IH as [(entries & -> & Hall) | (Hbad & err & ->)].
    + left. exists (e :: entries). split; [reflexivity|now constructor].
    + right. split; [now apply Exists_cons_tl|]. now exists err.
  - right. split; [now apply Exists_cons_hd|]. now exists err.
Qed.

Lemma entry_of_valid (kb : Bedrock.KnowledgeBaseSummary) (e : KnowledgeBaseEntry) :
  entry_of kb e -> ~ invalid_date kb.
Proof.
  unfold entry_of, invalid_date.
  intros (_ & _ & _ & _ & [[Hd _] | (iso & Hd & _)]) Hbad; congruence.
Qed.

Lemma all_valid_or_one_invalid (l : list Bedrock.KnowledgeBaseSummary) :
  Forall (fun kb => ~ invalid_date kb) l -> Exists invalid_date l -> False.
Proof.
  intros Hall Hex. apply Exists_exists in Hex as (kb & Hin & Hbad).
  rewrite Forall_forall in Hall. exact (Hall kb Hin Hbad).
Qed.

Lemma entries_all_valid (l : list Bedrock.KnowledgeBaseSummary)
    (entries : list KnowledgeBaseEntry) :
  Forall2 entry_of l entries -> Forall (fun kb => ~ invalid_date kb) l.
Proof.
  induction 1 as [|kb e l es He _ IH]; constructor;
    [exact (entry_of_valid kb e He) | exact IH].
Qed.

(** The catch block of [GET] answers with the generic failure and calls no
    remote service. *)
Lemma list_catch_run (err : Js.Thrown) :
  exists logs,
    list_catch err = (logs, inr fetch_failed) /\ remote_calls logs = [].
Proof. destruct err; eexists; split; reflexivity. Qed.

(** With a region, [GET] logs, sends one request for that region, and then
    answers in one of three ways. *)
Lemma GET_with_region_cases (request : NextRequest) (registry : Bedrock.Registry)
    (region : string) :
  searchParams_get "region" (searchParams request) = Some region ->
  region <> "" ->
  exists logs resp,
    GET request registry
    = (ConsoleLog "Sending request to AWS..." []
         :: ListKnowledgeBasesSent region :: logs, inr resp)
    /\ remote_calls logs = []
    /\ ((exists err, registry region = inl err /\ resp = fetch_failed)
        \/ (exists out, registry region = inr out
                        /\ Exists invalid_date (summaries_of out)
                        /\ resp = fetch_failed)
        \/ (exists out entries,
              registry region = inr out
              /\ Forall2 entry_of (summaries_of out) entries
              /\ resp = {| body := KnowledgeBasesBody entries; status := 200 |})).
Proof.
  intros Hget Hne. unfold GET. rewrite Hget, (truthy_string_Some region Hne).
  cbn [negb from_option Datatypes.id]. unfold await_list, console_log, emit.
  destruct (registry region) as [err | out] eqn:Hreg.
  - destruct (list_catch_run err) as (logs & Hcatch & Hlogs).
    exists logs, fetch_failed. cbn -[list_catch]. rewrite Hcatch.
    split; [reflexivity|]. split; [exact Hlogs|]. left. now exists err.
  - assert (Hmap : match Bedrock.knowledgeBaseSummaries out with
                   | Some summaries => map_eff to_entry summaries
                   | None => ret []
                   end = map_eff to_entry (summaries_of out)).
    { unfold summaries_of. now destruct (Bedrock.knowledgeBaseSummaries out). }
    cbn -[list_catch map_eff]. rewrite Hmap.
    destruct (map_eff_to_entry (summaries_of out))
      as [(entries & -> & Hall) | (Hbad & err & ->)].
    + eexists [], _. cbn -[list_catch]. split; [reflexivity|]. split; [reflexivity|].
      right. right. now exists out, entries.
    + destruct (list_catch_run err) as (logs & Hcatch & Hlogs).
      exists logs, fetch_failed. cbn -[list_catch]. rewrite Hcatch.
      split; [reflexivity|]. split; [exact Hlogs|]. right. left. now exists out.
Qed.

(** [GET] never throws, and its answer has one of three shapes: the two
    error answers, or status 200 with a list. *)
Theorem GET_answers (request : NextRequest) (registry : Bedrock.Registry) :
  exists resp,
    completion (GET request registry) = inr resp
    /\ (resp = {| body := ErrorBody "Region is required"; status := 400 |}
        \/ resp = {| body := ErrorBody "Failed to fetch knowledge bases";
                     status := 500 |}
        \/ exists entries,
            resp = {| body := KnowledgeBasesBody entries; status := 200 |}).
Proof.
  destruct (Js.truthy_string (searchParams_get "region" (searchParams request)))
    eqn:Hregion.
  - destruct (searchParams_get "region" (searchParams request)) as [region|] eqn:Hget;
      [|discriminate].
    assert (Hne : region <> "") by (intros ->; discriminate).
    destruct (GET_with_region_cases request registry region Hget Hne)
      as (logs & resp & -> & _ & Hcases).
    exists resp. split; [reflexivity|].
    destruct Hcases as [(err & _ & ->) | [(out & _ & _ & ->) | (out & entries & _ & _ & ->)]].
    + right. now left.
    + right. now left.
    + right. right. now exists entries.
  - exists region_required. unfold GET. rewrite Hregion. split; [reflexivity|now left].
Qed.

(** With a region, exactly one request goes to the registry, for the first
    value given for [region]. *)
Theorem GET_single_request (request : NextRequest) (registry : Bedrock.Registry)
    (region : string) :
  searchParams_get "region" (searchParams request) = Some region ->
  region <> "" ->
  remote_calls (trace (GET request registry)) = [ListKnowledgeBasesSent region].
Proof.
  intros Hget Hne.
  destruct (GET_with_region_cases request registry region Hget Hne)
    as (logs & resp & -> & Hlogs & _).
  unfold remote_calls in *. cbn. now rewrite Hlogs.
Qed.

Lemma GET_single_request_witness :
  searchParams_get "region"
    (searchParams {| searchParams := [("page", "2"); ("region", "us-east-1");
                                      ("region", "eu-west-1")] |})
  = Some "us-east-1"
  /\ "us-east-1" <> ""
  /\ remote_calls
       (trace (GET {| searchParams := [("page", "2"); ("region", "us-east-1");
                                       ("region", "eu-west-1")] |}
                   (registry_rejecting network_error)))
     = [ListKnowledgeBasesSent "us-east-1"].
Proof.
  split; [reflexivity|]. split; [discriminate|].
  apply (GET_single_request
           {| searchParams := [("page", "2"); ("region", "us-east-1");
                               ("region", "eu-west-1")] |}
           (registry_rejecting network_error) "us-east-1");
    [reflexivity | discriminate].
Defined.

(** When the registry answers and no timestamp is invalid, [GET] answers
    with status 200 and one entry for each summary, in the order of the
    registry, the fields copied and the timestamp in ISO form. *)
Theorem GET_lists_every_summary (request : NextRequest) (registry : Bedrock.Registry)
    (region : string) (out : Bedrock.ListKnowledgeBasesCommandOutput)
    (summaries : list Bedrock.KnowledgeBaseSummary) :
  searchParams_get "region" (searchParams request) = Some region ->
  region <> "" ->
  registry region = inr out ->
  Bedrock.knowledgeBaseSummaries out = Some summaries ->
  Forall (fun kb => ~ invalid_date kb) summaries ->
  exists entries,
    completion (GET request registry)
    = inr {| body := KnowledgeBasesBody entries; status := 200 |}
    /\ Forall2 entry_of summaries entries.
Proof.
  intros Hget Hne Hreg Hsum Hvalid.
  assert (Hof : summaries_of out = summaries)
    by (unfold summaries_of; now rewrite Hsum).
  destruct (GET_with_region_cases request registry region Hget Hne)
    as (logs & resp & -> & _ & Hcases).
  destruct Hcases as [(err & Herr & _) | [(out' & Hout & Hbad & _)
                                         | (out' & entries & Hout & Hall & ->)]].
  - congruence.
  - assert (out' = out) by congruence. subst out'. rewrite Hof in Hbad.
    destruct (all_valid_or_one_invalid summaries Hvalid Hbad).
  - assert (out' = out) by congruence. subst out'. rewrite Hof in Hall.
    now exists entries.
Qed.

Lemma GET_lists_every_summary_witness :
  searchParams_get "region" (searchParams (region_request "us-east-1"))
  = Some "us-east-1"
  /\ "us-east-1" <> ""
  /\ registry_listing
       [summary_of "KB1" "faq" (Some (Js.ValidDate "2024-05-01T10:00:00.000Z"));
        summary_of "KB2" "policies" None] "us-east-1"
     = inr {| Bedrock.knowledgeBaseSummaries :=
                Some [summary_of "KB1" "faq"
                        (Some (Js.ValidDate "2024-05-01T10:00:00.000Z"));
                      summary_of "KB2" "policies" None] |}
  /\ Bedrock.knowledgeBaseSummaries
       {| Bedrock.knowledgeBaseSummaries :=
            Some [summary_of "KB1" "faq"
                    (Some (Js.ValidDate "2024-05-01T10:00:00.000Z"));
                  summary_of "KB2" "policies" None] |}
     = Some [summary_of "KB1" "faq" (Some (Js.ValidDate "2024-05-01T10:00:00.000Z"));
             summary_of "KB2" "policies" None]
  /\ Forall (fun kb => ~ invalid_date kb)
       [summary_of "KB1" "faq" (Some (Js.ValidDate "2024-05-01T10:00:00.000Z"));
        summary_of "KB2" "policies" None]
  /\ exists entries,
      completion
        (GET (region_request "us-east-1")
           (registry_listing
              [summary_of "KB1" "faq" (Some (Js.ValidDate "2024-05-01T10:00:00.000Z"));
               summary_of "KB2" "policies" None]))
      = inr {| body := KnowledgeBasesBody entries; status := 200 |}
      /\ Forall2 entry_of
           [summary_of "KB1" "faq" (Some (Js.ValidDate "2024-05-01T10:00:00.000Z"));
            summary_of "KB2" "policies" None]
           entries.
Proof.
  assert (Hvalid : Forall (fun kb => ~ invalid_date kb)
            [summary_of "KB1" "faq" (Some (Js.ValidDate "2024-05-01T10:00:00.000Z"));
             summary_of "KB2" "policies" None]).
  { repeat constructor; discriminate. }
  split; [reflexivity|]. split; [discriminate|]. split; [reflexivity|].
  split; [reflexivity|]. split; [exact Hvalid|].
  apply (GET_lists_every_summary (region_request "us-east-1")
           (registry_listing
              [summary_of "KB1" "faq" (Some (Js.ValidDate "2024-05-01T10:00:00.000Z"));
               summary_of "KB2" "policies" None])
           "us-east-1"
           {| Bedrock.knowledgeBaseSummaries :=
                Some [summary_of "KB1" "faq"
                        (Some (Js.ValidDate "2024-05-01T10:00:00.000Z"));
                      summary_of "KB2" "policies" None] |}
           [summary_of "KB1" "faq" (Some (Js.ValidDate "2024-05-01T10:00:00.000Z"));
            summary_of "KB2" "policies" None]);
    [reflexivity | discriminate | reflexivity | reflexivity | exact Hvalid].
Defined.

(** A registry answer without a list of summaries is answered with status
    200 and the empty list. *)
Theorem GET_absent_summaries (request : NextRequest) (registry : Bedrock.Registry)
    (region : string) (out : Bedrock.ListKnowledgeBasesCommandOutput) :
  searchParams_get "region" (searchParams request) = Some region ->
  region <> "" ->
  registry region = inr out ->
  Bedrock.knowledgeBaseSummaries out = None ->
  completion (GET request registry)
  = inr {| body := KnowledgeBasesBody []; status := 200 |}.
Proof.
  intros Hget Hne Hreg Hsum. unfold GET.
  rewrite Hget, (truthy_string_Some region Hne).
  cbn [negb from_option Datatypes.id]. unfold await_list. cbn -[list_catch].
  rewrite Hreg. cbn -[list_catch]. rewrite Hsum. reflexivity.
Qed.

Lemma GET_absent_summaries_witness :
  searchParams_get "region" (searchParams (region_request "us-east-1"))
  = Some "us-east-1"
  /\ "us-east-1" <> ""
  /\ (fun _ : string =>
        inr {| Bedrock.knowledgeBaseSummaries := None |} : Js.Thrown + _) "us-east-1"
     = inr {| Bedrock.knowledgeBaseSummaries := None |}
  /\ Bedrock.knowledgeBaseSummaries {| Bedrock.knowledgeBaseSummaries := None |} = None
  /\ completion (GET (region_request "us-east-1")
                   (fun _ => inr {| Bedrock.knowledgeBaseSummaries := None |}))
     = inr {| body := KnowledgeBasesBody []; status := 200 |}.
Proof.
  split; [reflexivity|]. split; [discriminate|]. split; [reflexivity|].
  split; [reflexivity|].
  apply (GET_absent_summaries (region_request "us-east-1")
           (fun _ => inr {| Bedrock.knowledgeBaseSummaries := None |})
           "us-east-1" {| Bedrock.knowledgeBaseSummaries := None |});
    [reflexivity | discriminate | reflexivity | reflexivity].
Defined.

(** One summary with an invalid timestamp fails the whole request: the
    answer is the generic failure, and no part of the list is returned. *)
Theorem GET_invalid_date_fails (request : NextRequest) (registry : Bedrock.Registry)
    (region : string) (out : Bedrock.ListKnowledgeBasesCommandOutput)
    (summaries : list Bedrock.KnowledgeBaseSummary) :
  searchParams_get "region" (searchParams request) = Some region ->
  region <> "" ->
  registry region = inr out ->
  Bedrock.knowledgeBaseSummaries out = Some summaries ->
  Exists invalid_date summaries ->
  completion (GET request registry)
  = inr {| body := ErrorBody "Failed to fetch knowledge bases"; status := 500 |}.
Proof.
  intros Hget Hne Hreg Hsum Hbad.
  assert (Hof : summaries_of out = summaries)
    by (unfold summaries_of; now rewrite Hsum).
  destruct (GET_with_region_cases request registry region Hget Hne)
    as (logs & resp & -> & _ & Hcases).
  destruct Hcases as [(err & _ & ->) | [(out' & _ & _ & ->)
                                       | (out' & entries & Hout & Hall & _)]];
    try reflexivity.
  assert (out' = out) by congruence. subst out'. rewrite Hof in Hall.
  destruct (all_valid_or_one_invalid summaries
              (entries_all_valid summaries entries Hall) Hbad).
Qed.

Lemma GET_invalid_date_fails_witness :
  searchParams_get "region" (searchParams (region_request "us-east-1"))
  = Some "us-east-1"
  /\ "us-east-1" <> ""
  /\ registry_listing
       [summary_of "KB1" "faq" (Some (Js.ValidDate "2024-05-01T10:00:00.000Z"));
        summary_of "KB2" "policies" (Some Js.InvalidDate)] "us-east-1"
     = inr {| Bedrock.knowledgeBaseSummaries :=
                Some [summary_of "KB1" "faq"
                        (Some (Js.ValidDate "2024-05-01T10:00:00.000Z"));
                      summary_of "KB2" "policies" (Some Js.InvalidDate)] |}
  /\ Bedrock.knowledgeBaseSummaries
       {| Bedrock.knowledgeBaseSummaries :=
            Some [summary_of "KB1" "faq"
                    (Some (Js.ValidDate "2024-05-01T10:00:00.000Z"));
                  summary_of "KB2" "policies" (Some Js.InvalidDate)] |}
     = Some [summary_of "KB1" "faq" (Some (Js.ValidDate "2024-05-01T10:00:00.000Z"));
             summary_of "KB2" "policies" (Some Js.InvalidDate)]
  /\ Exists invalid_date
       [summary_of "KB1" "faq" (Some (Js.ValidDate "2024-05-01T10:00:00.000Z"));
        summary_of "KB2" "policies" (Some Js.InvalidDate)]
  /\ completion
       (GET (region_request "us-east-1")
          (registry_listing
             [summary_of "KB1" "faq" (Some (Js.ValidDate "2024-05-01T10:00:00.000Z"));
              summary_of "KB2" "policies" (Some Js.InvalidDate)]))
     = inr {| body := ErrorBody "Failed to fetch knowledge bases"; status := 500 |}.
Proof.
  assert (Hbad : Exists invalid_date
            [summary_of "KB1" "faq" (Some (Js.ValidDate "2024-05-01T10:00:00.000Z"));
             summary_of "KB2" "policies" (Some Js.InvalidDate)]).
  { apply Exists_cons_tl, Exists_cons_hd. reflexivity. }
  split; [reflexivity|]. split; [discriminate|]. split; [reflexivity|].
  split; [reflexivity|]. split; [exact Hbad|].
  apply (GET_invalid_date_fails (region_request "us-east-1")
           (registry_listing
              [summary_of "KB1" "faq" (Some (Js.ValidDate "2024-05-01T10:00:00.000Z"));
               summary_of "KB2" "policies" (Some Js.InvalidDate)])
           "us-east-1"
           {| Bedrock.knowledgeBaseSummaries :=
                Some [summary_of "KB1" "faq"
                        (Some (Js.ValidDate "2024-05-01T10:00:00.000Z"));
                      summary_of "KB2" "policies" (Some Js.InvalidDate)] |}
           [summary_of "KB1" "faq" (Some (Js.ValidDate "2024-05-01T10:00:00.000Z"));
            summary_of "KB2" "policies" (Some Js.InvalidDate)]);
    [reflexivity | discriminate | reflexivity | reflexivity | exact Hbad].
Defined.

Lemma GET_remote_failure_witness :
  searchParams_get "region" (searchParams (region_request "us-east-1"))
  = Some "us-east-1"
  /\ "us-east-1" <> ""
  /\ registry_rejecting network_error "us-east-1" = inl network_error
  /\ completion (GET (region_request "us-east-1") (registry_rejecting network_error))
     = inr {| body := ErrorBody "Failed to fetch knowledge bases"; status := 500 |}.
Proof.
  split; [reflexivity|]. split; [discriminate|]. split; [reflexivity|].
  apply (GET_remote_failure (region_request "us-east-1")
           (registry_rejecting network_error) "us-east-1" network_error);
    [reflexivity | discriminate | reflexivity].
Defined.

(** [GET] answers with status 200 exactly when a non-empty region is given,
    the registry answers, and no summary has an invalid timestamp. *)
Theorem GET_ok_iff (request : NextRequest) (registry : Bedrock.Registry) :
  exists resp,
    completion (GET request registry) = inr resp
    /\ (status resp = 200 <->
        exists region out,
          searchParams_get "region" (searchParams request) = Some region
          /\ region <> ""
          /\ registry region = inr out
          /\ Forall (fun kb => ~ invalid_date kb) (summaries_of out)).
Proof.
  destruct (Js.truthy_string (searchParams_get "region" (searchParams request)))
    eqn:Hregion.
  - destruct (searchParams_get "region" (searchParams request)) as [region|] eqn:Hget;
      [|discriminate].
    assert (Hne : region <> "") by (intros ->; discriminate).
    destruct (GET_with_region_cases request registry region Hget Hne)
      as (logs & resp & -> & _ & Hcases).
    exists resp. split; [reflexivity|].
    destruct Hcases as [(err & Herr & ->) | [(out & Hout & Hbad & ->)
                                            | (out & entries & Hout & Hall & ->)]].
    + split; [discriminate|].
      intros (region' & out & [= <-] & _ & Hout & _). congruence.
    + split; [discriminate|].
      intros (region' & out' & [= <-] & _ & Hout' & Hvalid).
      assert (out' = out) by congruence. subst out'.
      destruct (all_valid_or_one_invalid _ Hvalid Hbad).
    + split; [|reflexivity]. intros _. exists region, out.
      repeat split; try assumption.
      now apply (entries_all_valid _ entries).
  - exists region_required. unfold GET. rewrite Hregion. split; [reflexivity|].
    split; [discriminate|].
    intros (region & out & Hget & Hne & _). rewrite Hget in Hregion.
    rewrite (truthy_string_Some region Hne) in Hregion. discriminate.
Qed.

(** * Properties of the client factories *)

(** Both factories pass explicit credentials exactly when both variables
    are set and non-empty, and then pass those two values; with one of them
    missing or empty, no credentials are passed at all. *)
Theorem client_factories_credentials
    (env : gmap string string) (region : string) (c : AwsCredentials) :
  (credentials (createBedrockAgentClient env region) = Some c <->
   env !! "BAWS_ACCESS_KEY_ID" = Some (accessKeyId c)
   /\ env !! "BAWS_SECRET_ACCESS_KEY" = Some (secretAccessKey c)
   /\ accessKeyId c <> "" /\ secretAccessKey c <> "")
  /\ credentials (createBedrockClient env region)
     = credentials (createBedrockAgentClient env region).
Proof.
  split; [|reflexivity].
  unfold createBedrockAgentClient. cbn [credentials].
  destruct (env !! "BAWS_ACCESS_KEY_ID") as [k|] eqn:Hk;
    destruct (env !! "BAWS_SECRET_ACCESS_KEY") as [s|] eqn:Hs;
    cbn [Js.truthy_string andb negb from_option Datatypes.id].
  - destruct (String.eqb_spec k "") as [-> | Hkne];
      destruct (String.eqb_spec s "") as [-> | Hsne];
      cbn [negb andb]; split.
    + discriminate.
    + intros ([= <-] & _ & Hc & _). now destruct Hc.
    + discriminate.
    + intros ([= <-] & _ & Hc & _). now destruct Hc.
    + discriminate.
    + intros (_ & [= <-] & _ & Hc). now destruct Hc.
    + intros [= <-]. cbn. repeat split; assumption.
    + destruct c as [k' s']. cbn. intros ([= <-] & [= <-] & _). reflexivity.
  - rewrite andb_false_r. split; [discriminate|]. intros (_ & H & _). discriminate.
  - split; [discriminate|]. intros (H & _). discriminate.
  - split; [discriminate|]. intros (H & _). discriminate.
Qed.

(** The factories read no other variable: setting or changing one leaves
    the configuration as it was. *)
Theorem client_factories_ignore_other_variables
    (env : gmap string string) (region name value : string) :
  name <> "BAWS_ACCESS_KEY_ID" ->
  name <> "BAWS_SECRET_ACCESS_KEY" ->
  createBedrockAgentClient (<[name := value]> env) region
  = createBedrockAgentClient env region
  /\ createBedrockClient (<[name := value]> env) region
     = createBedrockClient env region.
Proof.
  intros Hk Hs. unfold createBedrockAgentClient, createBedrockClient.
  rewrite !lookup_insert_ne by assumption. split; reflexivity.
Qed.

Lemma client_factories_ignore_other_variables_witness :
  "AWS_ACCESS_KEY_ID" <> "BAWS_ACCESS_KEY_ID"
  /\ "AWS_ACCESS_KEY_ID" <> "BAWS_SECRET_ACCESS_KEY"
  /\ createBedrockAgentClient (<["AWS_ACCESS_KEY_ID" := "AKIA"]> ∅) "us-east-1"
     = createBedrockAgentClient ∅ "us-east-1"
  /\ createBedrockClient (<["AWS_ACCESS_KEY_ID" := "AKIA"]> ∅) "us-east-1"
     = createBedrockClient ∅ "us-east-1".
Proof.
  split; [discriminate|]. split; [discriminate|].
  apply (client_factories_ignore_other_variables ∅ "us-east-1"
           "AWS_ACCESS_KEY_ID" "AKIA"); discriminate.
Defined.

Example client_factory_examples :
  credentials (createBedrockAgentClient
                 (<["BAWS_ACCESS_KEY_ID" := "AKIA"]>
                    (<["BAWS_SECRET_ACCESS_KEY" := "s3cr3t"]> ∅)) "us-east-1")
  = Some {| accessKeyId := "AKIA"; secretAccessKey := "s3cr3t" |}
  /\ credentials (createBedrockClient
                    (<["BAWS_ACCESS_KEY_ID" := "AKIA"]> ∅) "us-east-1") = None
  /\ credentials (createBedrockClient
                    (<["BAWS_ACCESS_KEY_ID" := "AKIA"]>
                       (<["BAWS_SECRET_ACCESS_KEY" := ""]> ∅)) "us-east-1") = None.
Proof. repeat split; vm_compute; reflexivity. Qed.
